(** * A&M Wedding backend: a shallow embedding of [src/main.py]

    The service is a REST facade over a spreadsheet.  This development
    embeds the handlers of [main.py] as Rocq functions over an explicit
    model of the spreadsheet, the clock and the identifier generator, and
    proves the properties stated for them.

    Conventions.
    - Python [int] is [Z]; Python [str] is [string] (the UTF-8 bytes of the
      text, so that the byte-wise order [String.compare] is the code-point
      order Python uses to compare strings).
    - A Python [dict] with string keys is a [gmap string _].
    - A Python exception is a value of [exn]; a call that may raise returns
      a [result]. *)

From Stdlib Require Import ZArith String Ascii List Lia.
From Stdlib Require Import DecimalString DecimalNat DecimalZ.
From stdpp Require Import gmap strings list sorting.

Local Open Scope Z_scope.
#[local] Set Warnings "-register-all".

(* ================================================================== *)
(** * Part I: the embedding                                            *)
(* ================================================================== *)

(** ** Exceptions and results *)

Inductive exn : Type :=
| IndexError
| KeyError (key : string)
| TypeError
| ValueError (msg : string)
| ValidationError
| JSONDecodeError
| GSpreadException
| HTTPException (status_code : Z) (detail : string)
                (headers : list (string * string)).

Inductive result (A : Type) : Type :=
| Ok (a : A)
| Raise (e : exn).
Arguments Ok {A} a.
Arguments Raise {A} e.

Definition rbind {A B} (r : result A) (k : A -> result B) : result B :=
  match r with
  | Ok a => k a
  | Raise e => Raise e
  end.

Declare Scope result_scope.
Delimit Scope result_scope with result.
Notation "'let!' x ':=' c 'in' k" := (rbind c (fun x => k))
  (at level 10, x name, c at level 100, k at level 200) : result_scope.

(** A comprehension [[f(x) for x in l]] whose body may raise: elements are
    evaluated left to right and the first exception escapes. *)
Fixpoint rmap {A B} (f : A -> result B) (l : list A) : result (list B) :=
  match l with
  | [] => Ok []
  | x :: l' =>
      (let! y := f x in let! ys := rmap f l' in Ok (y :: ys))%result
  end.

(** ** Python sequence operations *)

(** [l[start:stop]]: a negative bound counts from the end, and both bounds
    are clamped to [0 .. len(l)]; an empty range gives the empty list. *)
Definition slice_bound (len i : Z) : Z :=
  if i <? 0 then Z.max (i + len) 0 else Z.min i len.

Definition py_slice {A} (l : list A) (start stop : Z) : list A :=
  let len := Z.of_nat (length l) in
  let lo := slice_bound len start in
  let hi := slice_bound len stop in
  take (Z.to_nat (hi - lo)) (drop (Z.to_nat lo) l).

(** [list.sort(key=...)] on string keys: the sort is stable and uses only
    [<] on the keys.  [insert_by_key] puts an element before the first
    element whose key is not smaller, so an element that came earlier stays
    ahead of later elements with an equal key. *)
Fixpoint insert_by_key {A} (k : string) (x : A) (l : list (string * A))
  : list (string * A) :=
  match l with
  | [] => [(k, x)]
  | (k', y) :: l' =>
      if String.ltb k' k then (k', y) :: insert_by_key k x l'
      else (k, x) :: (k', y) :: l'
  end.

Fixpoint sort_keyed {A} (l : list (string * A)) : list (string * A) :=
  match l with
  | [] => []
  | (k, x) :: l' => insert_by_key k x (sort_keyed l')
  end.

(** The key function is applied to every element before any comparison, so
    a key that raises makes the whole sort raise. *)
Definition py_sort_by {A} (key : A -> result string) (l : list A)
  : result (list A) :=
  (let! ks := rmap (fun x => let! k := key x in Ok (k, x)) l in
   Ok (snd <$> sort_keyed ks))%result.

(** ** Records read from a sheet *)

Abbreviation record := (gmap string string).

(** [record.get(k)] *)
Definition dict_get (r : record) (k : string) : option string := r !! k.

(** [record[k]] *)
Definition dict_item (r : record) (k : string) : result string :=
  match r !! k with
  | Some v => Ok v
  | None => Raise (KeyError k)
  end.

(** ** Row codec: [row_to_dict] *)

(** [{headers[i]: row[i] for i in range(len(headers))}]: the indices are
    visited in order, a later equal key overwrites an earlier one, and
    [row[i]] raises [IndexError] when the row is too short. *)
Fixpoint row_to_dict_from (headers row : list string) (indices : list nat)
    (d : record) : result record :=
  match indices with
  | [] => Ok d
  | i :: rest =>
      match headers !! i, row !! i with
      | Some h, Some v => row_to_dict_from headers row rest (<[h := v]> d)
      | _, _ => Raise IndexError
      end
  end.

Definition row_to_dict (headers row : list string) : result record :=
  row_to_dict_from headers row (seq 0 (length headers)) ∅.

(** ** Public gift model *)

Record GiftPublic : Type := mkGiftPublic {
  gp_id : string;
  gp_name : string;
  gp_image_url : string
}.

(** [GiftPublic(id=g['id'], name=g['name'], image_url=g['image_url'])] *)
Definition gift_public_of (g : record) : result GiftPublic :=
  (let! i := dict_item g "id" in
   let! n := dict_item g "name" in
   let! u := dict_item g "image_url" in
   Ok (mkGiftPublic i n u))%result.

(** ** Listing the available gifts, on the fetched records *)

Definition is_available (r : record) : bool :=
  bool_decide (dict_get r "available" = Some "TRUE").

Definition sorted_available (records : list record) : result (list record) :=
  py_sort_by (fun x => dict_item x "name") (filter is_available records).

Definition list_available_of (records : list record) (page limit : Z)
  : result (list GiftPublic) :=
  (let! available_gifts := sorted_available records in
   let start := (page - 1) * limit in
   let end_ := start + limit in
   let paginated_gifts := py_slice available_gifts start end_ in
   rmap gift_public_of paginated_gifts)%result.

(** ** Listing testimonials, on the fetched records *)

Definition list_testimonials_of (records : list record) (page limit : Z)
  : list record :=
  let start := (page - 1) * limit in
  let end_ := start + limit in
  py_slice records start end_.

(* ------------------------------------------------------------------ *)
(** ** Python values written to cells *)

Inductive pyval : Type :=
| PNone
| PBool (b : bool)
| PInt (z : Z)
| PStr (s : string).

(** [str(n)] for an integer. *)
Definition str_int (z : Z) : string :=
  DecimalString.NilZero.string_of_int (Z.to_int z).

(** [int(s)] on a decimal literal, as the response model reads a phone
    number back from a cell. *)
Definition parse_int (s : string) : option Z :=
  Z.of_int <$> DecimalString.NilZero.int_of_string s.

(** The text a cell shows after a Python value is written to it: [None]
    leaves the cell empty, a boolean shows as [TRUE] or [FALSE], an integer
    in decimal, and a text as itself.  Every read of the store returns this
    text. *)
Definition render (v : pyval) : string :=
  match v with
  | PNone => ""
  | PBool true => "TRUE"
  | PBool false => "FALSE"
  | PInt z => str_int z
  | PStr s => s
  end.

(** Truthiness of an optional text, as in [if record.get(k)]. *)
Definition truthy (o : option string) : bool :=
  match o with
  | Some s => negb (bool_decide (s = ""))
  | None => false
  end.

(** ** Identifiers and time *)

(** A [uuid.UUID] is its 128-bit integer. *)
Definition UUID : Type := N.

Definition hex_digit (n : N) : ascii :=
  match n with
  | 0 => "0" | 1 => "1" | 2 => "2" | 3 => "3" | 4 => "4" | 5 => "5"
  | 6 => "6" | 7 => "7" | 8 => "8" | 9 => "9" | 10 => "a" | 11 => "b"
  | 12 => "c" | 13 => "d" | 14 => "e" | _ => "f"
  end%N%char.

(** The value of a hexadecimal digit. *)
Definition hex_value (a : ascii) : N :=
  match a with
  | "0" => 0 | "1" => 1 | "2" => 2 | "3" => 3 | "4" => 4 | "5" => 5
  | "6" => 6 | "7" => 7 | "8" => 8 | "9" => 9 | "a" => 10 | "b" => 11
  | "c" => 12 | "d" => 13 | "e" => 14 | _ => 15
  end%N%char.

(** ['%0<width>x' % n], keeping the low [width] digits. *)
Fixpoint hex_of (width : nat) (n : N) : string :=
  match width with
  | O => ""
  | S w => hex_of w (n / 16)%N +:+ String (hex_digit (n mod 16)%N) ""
  end.

(** [str(u)]: the 32 hexadecimal digits grouped 8-4-4-4-12. *)
Definition str_uuid (u : UUID) : string :=
  let hex := hex_of 32 u in
  substring 0 8 hex +:+ "-" +:+ substring 8 4 hex +:+ "-" +:+
  substring 12 4 hex +:+ "-" +:+ substring 16 4 hex +:+ "-" +:+
  substring 20 12 hex.

(** A [datetime] in UTC. *)
Record datetime : Type := mkDatetime {
  year : nat; month : nat; day : nat;
  hour : nat; minute : nat; second : nat; microsecond : nat
}.

(** [str(n).zfill(width)] *)
Definition zfill (width n : nat) : string :=
  let digits := DecimalString.NilZero.string_of_uint (Nat.to_uint n) in
  string_of_list_ascii
    (replicate (width - String.length digits) "0"%char) +:+ digits.

(** [str(d)] for an aware UTC datetime: ISO format with a space separator;
    the fraction is omitted when the microsecond is zero. *)
Definition str_datetime (d : datetime) : string :=
  zfill 4 (year d) +:+ "-" +:+ zfill 2 (month d) +:+ "-" +:+
  zfill 2 (day d) +:+ " " +:+ zfill 2 (hour d) +:+ ":" +:+
  zfill 2 (minute d) +:+ ":" +:+ zfill 2 (second d) +:+
  (if Nat.eqb (microsecond d) 0 then "" else "." +:+ zfill 6 (microsecond d))
  +:+ "+00:00".

(** ** JSON *)

Inductive json : Type :=
| JNull
| JBool (b : bool)
| JInt (z : Z)
| JStr (s : string)
| JArr (items : list json)
| JObj (fields : list (string * json)).

(** The [json] module is a collaborator of the service: [json_dumps]
    serialises a document, [json_loads] parses a text and gives [None] where
    Python raises [JSONDecodeError]. *)
Class JsonCodec : Type := {
  json_dumps : json -> string;
  json_loads : string -> option json
}.

Fixpoint assoc (k : string) (fields : list (string * json)) : option json :=
  match fields with
  | [] => None
  | (k', v) :: rest => if bool_decide (k' = k) then Some v else assoc k rest
  end.

(** ** The models of [main.py] *)

Inductive RSVPStatus : Type := CONFIRMED | DECLINED.

Definition status_value (s : RSVPStatus) : string :=
  match s with
  | CONFIRMED => "confirmed"
  | DECLINED => "declined"
  end.

Inductive PersonType : Type := ADULT | CHILD.

Definition person_value (p : PersonType) : string :=
  match p with
  | ADULT => "adult"
  | CHILD => "child"
  end.

Record Companion : Type := mkCompanion {
  companion_full_name : string;
  companion_person : PersonType
}.

Record RSVPRequest : Type := mkRSVPRequest {
  rsvp_full_name : string;
  rsvp_status : RSVPStatus;
  rsvp_phone : Z;
  rsvp_companions : option (list Companion)
}.

(** [RSVP] extends [RSVPRequest] with [created_at].  The timestamp is kept
    as the text of its cell: how the response model parses that text into a
    [datetime] is not part of this development. *)
Record RSVP : Type := mkRSVP {
  rsvp_request : RSVPRequest;
  rsvp_created_at : string
}.

Record GiftRequest : Type := mkGiftRequest {
  gift_request_name : string;
  gift_request_image_url : string
}.

Record Gift : Type := mkGift {
  gift_name : string;
  gift_image_url : string;
  gift_id : string;
  gift_available : bool;
  gift_purchased : option string;
  gift_updated_at : datetime
}.

Record GiftPurchaseRequest : Type := mkGiftPurchaseRequest {
  purchase_id : UUID;
  purchase_purchased : string
}.

Record TestimonialRequest : Type := mkTestimonialRequest {
  testimonial_full_name : string;
  testimonial_message : string
}.

(** [c.model_dump()] *)
Definition model_dump (c : Companion) : json :=
  JObj [("full_name", JStr (companion_full_name c));
        ("person", JStr (person_value (companion_person c)))].

(** Validation of the enumerations from their text. *)
Definition status_of_string (s : string) : option RSVPStatus :=
  if bool_decide (s = "confirmed") then Some CONFIRMED
  else if bool_decide (s = "declined") then Some DECLINED
  else None.

Definition person_of_string (s : string) : option PersonType :=
  if bool_decide (s = "adult") then Some ADULT
  else if bool_decide (s = "child") then Some CHILD
  else None.

(** Validation of one parsed companion: an object with a text [full_name]
    and a [person] that names a [PersonType]. *)
Definition validate_companion (j : json) : option Companion :=
  match j with
  | JObj fields =>
      match assoc "full_name" fields, assoc "person" fields with
      | Some (JStr n), Some (JStr p) =>
          mkCompanion n <$> person_of_string p
      | _, _ => None
      end
  | _ => None
  end.

(** Validation of [Optional[List[Companion]]]. *)
Definition validate_companions (j : option json)
  : option (option (list Companion)) :=
  match j with
  | None | Some JNull => Some None
  | Some (JArr items) => Some <$> mapM validate_companion items
  | Some _ => None
  end.

(** The [RSVP] built from the entries of [record] as keyword arguments,
    where the [companions] entry has been replaced by [companions]. *)
Definition validate_RSVP (record : record) (companions : option json)
  : result RSVP :=
  match record !! "full_name",
        record !! "status" ≫= status_of_string,
        record !! "phone" ≫= parse_int,
        validate_companions companions,
        record !! "created_at" with
  | Some n, Some st, Some ph, Some cs, Some t =>
      Ok (mkRSVP (mkRSVPRequest n st ph cs) t)
  | _, _, _, _, _ => Raise ValidationError
  end.

(* ------------------------------------------------------------------ *)
(** ** The spreadsheet store

    The remote spreadsheet is a collaborator of the service.  A worksheet is
    a grid of text cells addressed by 1-based coordinates; [cells] lists the
    rows from the top, a cell outside the lists is empty, and [row_count] is
    the height of the grid.  The operations below are the ones [main.py]
    calls on a worksheet handle, with the behaviour the handlers rely on.

    The store is taken to keep the text it is given: a text is not
    reinterpreted as a number, a date or a formula when it is written, and a
    read returns the text of a cell and not a number made from it.  The
    spreadsheet is taken as open: the configuration errors of
    [get_spreadsheet] (a missing secret or identifier) are not modelled. *)

Record worksheet : Type := mkWorksheet {
  row_count : nat;
  cells : list (list string)
}.

(** [spreadsheet.add_worksheet(title, rows="100", cols="20")]: an empty
    grid of a hundred rows, without a header. *)
Definition fresh_worksheet : worksheet := mkWorksheet 100 [].

Definition row_at (ws : worksheet) (r : nat) : list string :=
  default [] (cells ws !! pred r).

Definition cell_at (ws : worksheet) (r c : nat) : string :=
  default "" (row_at ws r !! pred c).

(** Reads never report trailing empty cells nor trailing empty rows. *)
Fixpoint rstrip_by {A} (blank : A -> bool) (l : list A) : list A :=
  match l with
  | [] => []
  | x :: l' =>
      match rstrip_by blank l' with
      | [] => if blank x then [] else [x]
      | rest => x :: rest
      end
  end.

Definition blank_cell (s : string) : bool := bool_decide (s = "").
Definition blank_row (row : list string) : bool := forallb blank_cell row.

(** [ws.row_values(r)] *)
Definition row_values (ws : worksheet) (r : nat) : list string :=
  rstrip_by blank_cell (row_at ws r).

(** The values of the whole sheet, every row padded with empty cells to the
    width of the widest one. *)
Definition values_of (ws : worksheet) : list (list string) :=
  rstrip_by blank_cell <$> rstrip_by blank_row (cells ws).

Definition fill_gaps (values : list (list string)) : list (list string) :=
  let width := max_list (length <$> values) in
  (fun row => row ++ replicate (width - length row) ""%string) <$> values.

Definition get_all_values (ws : worksheet) : list (list string) :=
  fill_gaps (values_of ws).

(** [ws.get_all_records()]: the first row gives the keys, which must be
    pairwise distinct, and every later row gives one record. *)
Definition get_all_records (ws : worksheet) : result (list record) :=
  match get_all_values ws with
  | [] => Ok []
  | keys :: values =>
      if bool_decide (NoDup keys)
      then Ok ((fun row => (list_to_map (zip keys row) : record)) <$> values)
      else Raise GSpreadException
  end.

(** [ws.find(query, in_column=1)]: the first cell of column 1, from the top
    and the header row included, whose text is exactly [query]; the result
    is the row number of that cell, which is all the handlers use of it. *)
Definition find_in_column_1 (ws : worksheet) (query : string) : option nat :=
  (fun hit => S hit.1) <$>
  list_find (fun row => row !! 0%nat = Some query) (get_all_values ws).

Definition set_cell (r c : nat) (text : string) (rows : list (list string))
  : list (list string) :=
  alter (fun row => <[pred c := text]>
                      (row ++ replicate (c - length row) ""%string))
        (pred r)
        (rows ++ replicate (r - length rows) []).

(** [ws.update_cell(r, c, v)] *)
Definition update_cell (ws : worksheet) (r c : nat) (v : pyval) : worksheet :=
  mkWorksheet (row_count ws) (set_cell r c (render v) (cells ws)).

(** [ws.update(values)]: the block [values] is written from cell A1; the
    cells to the right of a written row are left as they were. *)
Fixpoint overwrite (values old : list (list string)) : list (list string) :=
  match values, old with
  | [], _ => old
  | v :: vs, [] => v :: overwrite vs []
  | v :: vs, o :: os => (v ++ drop (length v) o) :: overwrite vs os
  end.

Definition update (ws : worksheet) (values : list (list string)) : worksheet :=
  let cells' := overwrite values (cells ws) in
  mkWorksheet (Nat.max (row_count ws) (length cells')) cells'.

(** [ws.append_rows(rows, value_input_option='USER_ENTERED')]: the rows are
    written below the last row that holds data, and the grid grows when it
    has to. *)
Definition append_rows (ws : worksheet) (rows : list (list pyval)) : worksheet :=
  let cells' :=
    rstrip_by blank_row (cells ws)
    ++ ((fun row : list pyval => render <$> row) <$> rows) in
  mkWorksheet (Nat.max (row_count ws) (length cells')) cells'.

(** [ws.append_row(row, ...)] *)
Definition append_row (ws : worksheet) (row : list pyval) : worksheet :=
  append_rows ws [row].

(** ** The world of a request

    Everything outside the process that a handler reads or changes: the
    environment variables, the worksheets of the spreadsheet, the clock and
    the random source behind [uuid.uuid4], and the log of the mutating calls
    made on the store.  The [n]-th read of the clock returns
    [clock_source n], the [n]-th identifier is [uuid_source n]. *)

Inductive store_call : Type :=
| AddWorksheet (title : string)
| Update (title : string) (values : list (list string))
| AppendRow (title : string) (row : list pyval)
| AppendRows (title : string) (rows : list (list pyval))
| UpdateCell (title : string) (r c : nat) (v : pyval).

Record world : Type := mkWorld {
  environ : gmap string string;
  sheets : gmap string worksheet;
  clock_source : nat -> datetime;
  clock_reads : nat;
  uuid_source : nat -> UUID;
  uuids_drawn : nat;
  calls : list store_call
}.

(** A handler runs in a world and may raise; what it changed before it
    raised stays changed. *)
Definition M (A : Type) : Type := world -> result A * world.

Definition ret {A} (a : A) : M A := fun w => (Ok a, w).

Definition raise {A} (e : exn) : M A := fun w => (Raise e, w).

Definition bind {A B} (m : M A) (k : A -> M B) : M B :=
  fun w =>
    match m w with
    | (Ok a, w') => k a w'
    | (Raise e, w') => (Raise e, w')
    end.

Definition lift {A} (r : result A) : M A := fun w => (r, w).

Declare Scope action_scope.
Delimit Scope action_scope with action.
Bind Scope action_scope with M.
Notation "'let!' x ':=' c 'in' k" := (bind c (fun x => k))
  (at level 10, x name, c at level 100, k at level 200) : action_scope.

Definition sheet (w : world) (title : string) : worksheet :=
  default fresh_worksheet (sheets w !! title).
Arguments sheet : simpl never.

Definition read {A} (title : string) (f : worksheet -> A) : M A :=
  fun w => (Ok (f (sheet w title)), w).

Definition write (title : string) (f : worksheet -> worksheet)
    (c : store_call) : M unit :=
  fun w =>
    (Ok tt,
     mkWorld (environ w) (<[title := f (sheet w title)]> (sheets w))
             (clock_source w) (clock_reads w)
             (uuid_source w) (uuids_drawn w) (calls w ++ [c])).

(** [datetime.now(tz=UTC)] *)
Definition datetime_now : M datetime :=
  fun w =>
    (Ok (clock_source w (clock_reads w)),
     mkWorld (environ w) (sheets w) (clock_source w) (S (clock_reads w))
             (uuid_source w) (uuids_drawn w) (calls w)).

(** [uuid.uuid4()] *)
Definition uuid4 : M UUID :=
  fun w =>
    (Ok (uuid_source w (uuids_drawn w)),
     mkWorld (environ w) (sheets w) (clock_source w) (clock_reads w)
             (uuid_source w) (S (uuids_drawn w)) (calls w)).

(** [get_worksheet(sheet_name)]: the worksheet of that name, created when
    the spreadsheet has none.  The handle it returns is the name. *)
Definition get_worksheet (sheet_name : string) : M string :=
  fun w =>
    match sheets w !! sheet_name with
    | Some _ => (Ok sheet_name, w)
    | None =>
        (Ok sheet_name,
         mkWorld (environ w) (<[sheet_name := fresh_worksheet]> (sheets w))
                 (clock_source w) (clock_reads w)
                 (uuid_source w) (uuids_drawn w)
                 (calls w ++ [AddWorksheet sheet_name]))
    end.

(** The header check shared by the three registrations:
    [if ws.row_count < 2 or not ws.row_values(1): ws.update([headers])]. *)
Definition ensure_headers (ws : string) (headers : list string) : M unit :=
  (let! rows := read ws row_count in
   let! first := read ws (fun s => row_values s 1) in
   if (rows <? 2)%nat || bool_decide (first = [])
   then write ws (fun s => update s [headers]) (Update ws [headers])
   else ret tt)%action.

(* ------------------------------------------------------------------ *)
(** ** RSVP handlers *)

Definition rsvp_headers : list string :=
  ["full_name"; "status"; "phone"; "companions"; "created_at"].

(** [POST /rsvp].  A handler that returns [{"message": m}] returns [m]
    here. *)
Definition register_rsvp `{JsonCodec} (rsvp_data : RSVPRequest) : M string :=
  (let! ws := get_worksheet "rsvp" in
   let headers := rsvp_headers in
   let! _ := ensure_headers ws headers in
   let companions_json :=
     match rsvp_companions rsvp_data with
     | Some (c :: cs) => PStr (json_dumps (JArr (model_dump <$> c :: cs)))
     | Some [] | None => PNone
     end in
   let! now := datetime_now in
   let row := [PStr (rsvp_full_name rsvp_data);
               PStr (status_value (rsvp_status rsvp_data));
               PInt (rsvp_phone rsvp_data);
               companions_json;
               PStr (str_datetime now)] in
   let! _ := write ws (fun s => append_row s row) (AppendRow ws row) in
   ret "RSVP registered successfully."%string)%action.

(** [json.loads(record.get("companions")) if record.get("companions")
    else None] *)
Definition load_companions `{JsonCodec} (record : record)
  : result (option json) :=
  if truthy (dict_get record "companions")
  then match json_loads (default "" (dict_get record "companions")) with
       | Some j => Ok (Some j)
       | None => Raise JSONDecodeError
       end
  else Ok None.

(** The loop of [list_rsvps] over the fetched records. *)
Fixpoint filter_rsvps `{JsonCodec} (status : RSVPStatus)
    (records : list record) : result (list RSVP) :=
  match records with
  | [] => Ok []
  | record :: rest =>
      if bool_decide (dict_get record "status" = Some (status_value status))
      then (let! companions := load_companions record in
            let! rsvp := validate_RSVP record companions in
            let! others := filter_rsvps status rest in
            Ok (rsvp :: others))%result
      else filter_rsvps status rest
  end.

(** [GET /rsvp?status=] *)
Definition list_rsvps `{JsonCodec} (status : RSVPStatus) : M (list RSVP) :=
  (let! ws := get_worksheet "rsvp" in
   let! records := bind (read ws get_all_records) lift in
   lift (filter_rsvps status records))%action.

(* ------------------------------------------------------------------ *)
(** ** Gift handlers *)

Definition gift_headers : list string :=
  ["id"; "name"; "image_url"; "available"; "purchased"; "updated_at"].

(** [Gift(name=..., image_url=..., updated_at=...)]: the identifier comes
    from the default factory [str(uuid.uuid4())], and the two other fields
    take their defaults. *)
Definition new_Gift (name image_url : string) (updated_at : datetime) : M Gift :=
  (let! u := uuid4 in
   ret (mkGift name image_url (str_uuid u) true None updated_at))%action.

Definition gift_row (gift : Gift) : list pyval :=
  [PStr (gift_id gift); PStr (gift_name gift); PStr (gift_image_url gift);
   PBool (gift_available gift);
   match gift_purchased gift with Some b => PStr b | None => PNone end;
   PStr (str_datetime (gift_updated_at gift))].

(** The loop of [register_gifts] that builds [rows]. *)
Fixpoint new_gifts (gifts : list GiftRequest) : M (list Gift) :=
  match gifts with
  | [] => ret []
  | g :: rest =>
      (let! now := datetime_now in
       let! gift := new_Gift (gift_request_name g)
                             (gift_request_image_url g) now in
       let! others := new_gifts rest in
       ret (gift :: others))%action
  end.

(** [POST /gifts] *)
Definition register_gifts (gifts : list GiftRequest) : M string :=
  (let! ws := get_worksheet "gifts" in
   let headers := gift_headers in
   let! _ := ensure_headers ws headers in
   let! made := new_gifts gifts in
   let rows := gift_row <$> made in
   let! _ := write ws (fun s => append_rows s rows) (AppendRows ws rows) in
   ret (str_int (Z.of_nat (length gifts))
        +:+ " gifts registered successfully."))%action.

(** [PATCH /gifts/purchased] *)
Definition update_gift_purchased (purchase : GiftPurchaseRequest) : M string :=
  (let! ws := get_worksheet "gifts" in
   let! cell :=
     read ws (fun s => find_in_column_1 s (str_uuid (purchase_id purchase))) in
   match cell with
   | None => raise (HTTPException 404 "Gift not found." [])
   | Some row_index =>
       let! _ := write ws (fun s => update_cell s row_index 4 (PBool false))
                       (UpdateCell ws row_index 4 (PBool false)) in
       let buyer := PStr (purchase_purchased purchase) in
       let! _ := write ws (fun s => update_cell s row_index 5 buyer)
                       (UpdateCell ws row_index 5 buyer) in
       let! now := datetime_now in
       let stamp := PStr (str_datetime now) in
       let! _ := write ws (fun s => update_cell s row_index 6 stamp)
                       (UpdateCell ws row_index 6 stamp) in
       ret ("Gift " +:+ str_uuid (purchase_id purchase)
            +:+ " marked as purchased by "
            +:+ purchase_purchased purchase +:+ ".")
   end)%action.

(** [GET /gifts?page=&limit=] *)
Definition list_available_gifts (page limit : Z) : M (list GiftPublic) :=
  (let! ws := get_worksheet "gifts" in
   let! records := bind (read ws get_all_records) lift in
   lift (list_available_of records page limit))%action.

(** [GET /gifts/{id}] *)
Definition get_gift_by_id (id : string) : M GiftPublic :=
  (let! ws := get_worksheet "gifts" in
   let! cell := read ws (fun s => find_in_column_1 s id) in
   match cell with
   | None => raise (HTTPException 404 "Gift not found." [])
   | Some cell_row =>
       let! row := read ws (fun s => row_values s cell_row) in
       let! headers := read ws (fun s => row_values s 1) in
       let! gift_dict := lift (row_to_dict headers row) in
       lift (gift_public_of gift_dict)
   end)%action.

(* ------------------------------------------------------------------ *)
(** ** Testimonial handlers *)

Definition testimonial_headers : list string :=
  ["full_name"; "message"; "created_at"].

(** [POST /testimonials] *)
Definition register_testimonial (testimonial : TestimonialRequest) : M string :=
  (let! ws := get_worksheet "testimonials" in
   let headers := testimonial_headers in
   let! _ := ensure_headers ws headers in
   let! now := datetime_now in
   let row := [PStr (testimonial_full_name testimonial);
               PStr (testimonial_message testimonial);
               PStr (str_datetime now)] in
   let! _ := write ws (fun s => append_row s row) (AppendRow ws row) in
   ret "Testimonial registered successfully."%string)%action.

(** [GET /testimonials?page=&limit=] *)
Definition list_testimonials (page limit : Z) : M (list record) :=
  (let! ws := get_worksheet "testimonials" in
   let! records := bind (read ws get_all_records) lift in
   ret (list_testimonials_of records page limit))%action.

(* ------------------------------------------------------------------ *)
(** ** Authentication and the HTTP layer *)

Record HTTPBasicCredentials : Type := mkCredentials {
  username : string;
  password : string
}.

(** [get_current_user]: the dependency that checks the submitted pair
    against [API_USER] and [API_PASSWORD]. *)
Definition get_current_user (credentials : HTTPBasicCredentials) : M string :=
  fun w =>
    let API_USER := environ w !! "API_USER" in
    let API_PASSWORD := environ w !! "API_PASSWORD" in
    if negb (truthy API_USER) || negb (truthy API_PASSWORD)
    then (Raise (ValueError
                   "API_USER or API_PASSWORD environment variables not set."),
          w)
    else if negb (bool_decide (Some (username credentials) = API_USER))
            || negb (bool_decide (Some (password credentials) = API_PASSWORD))
    then (Raise (HTTPException 401 "Incorrect username or password"
                               [("WWW-Authenticate", "Basic")]), w)
    else (Ok (username credentials), w).

(** The routes of the application, each with its validated input. *)
Inductive endpoint : Type :=
| POST_rsvp (rsvp_data : RSVPRequest)
| GET_rsvp (status : RSVPStatus)
| POST_gifts (gifts : list GiftRequest)
| PATCH_gifts_purchased (purchase : GiftPurchaseRequest)
| GET_gifts (page limit : Z)
| GET_gifts_id (id : string)
| POST_testimonials (testimonial : TestimonialRequest)
| GET_testimonials (page limit : Z).

Inductive http_body : Type :=
| BodyMessage (message : string)
| BodyDetail (detail : string)
| BodyRSVPs (l : list RSVP)
| BodyGifts (l : list GiftPublic)
| BodyGift (g : GiftPublic)
| BodyRecords (l : list record).

Record http_request : Type := mkRequest {
  authorization : option HTTPBasicCredentials;
  target : endpoint
}.

Record http_response : Type := mkResponse {
  response_status : Z;
  response_headers : list (string * string);
  response_body : http_body
}.

(** The response for a handler that returned, with the status code of its
    route, or raised: an [HTTPException] becomes its own response, any other
    exception a server error. *)
Definition respond {A} (success : Z) (body : A -> http_body) (m : M A)
  : world -> http_response * world :=
  fun w =>
    match m w with
    | (Ok a, w') => (mkResponse success [] (body a), w')
    | (Raise (HTTPException code detail headers), w') =>
        (mkResponse code headers (BodyDetail detail), w')
    | (Raise _, w') =>
        (mkResponse 500 [] (BodyDetail "Internal Server Error"), w')
    end.

(** The application.  No route of [main.py] declares [get_current_user] as
    a dependency, so the [authorization] of a request is never looked at. *)
Definition app `{JsonCodec} (request : http_request)
  : world -> http_response * world :=
  match target request with
  | POST_rsvp rsvp_data => respond 201 BodyMessage (register_rsvp rsvp_data)
  | GET_rsvp status => respond 200 BodyRSVPs (list_rsvps status)
  | POST_gifts gifts => respond 201 BodyMessage (register_gifts gifts)
  | PATCH_gifts_purchased purchase =>
      respond 202 BodyMessage (update_gift_purchased purchase)
  | GET_gifts page limit => respond 200 BodyGifts (list_available_gifts page limit)
  | GET_gifts_id id => respond 200 BodyGift (get_gift_by_id id)
  | POST_testimonials testimonial =>
      respond 201 BodyMessage (register_testimonial testimonial)
  | GET_testimonials page limit =>
      respond 200 BodyRecords (list_testimonials page limit)
  end.

(* ------------------------------------------------------------------ *)
(** ** Vocabulary of the specification *)

(** Order of names: [str_le a b] when [b < a] does not hold. *)
Definition str_le (a b : string) : Prop := String.ltb b a = false.









(** ** Sample data *)



(** The decode property with no condition on repeated header names. *)
Definition decodes_positionally (headers row : list string) : Prop :=
  (length headers <= length row)%nat ->
  exists d, row_to_dict headers row = Ok d /\
            forall i h, headers !! i = Some h -> d !! h = row !! i.

(** ** Closed forms of the handlers' effects *)

(** The worksheet after the header check. *)
Definition headed (headers : list string) (ws : worksheet) : worksheet :=
  if (row_count ws <? 2)%nat || bool_decide (row_values ws 1 = [])
  then update ws [headers] else ws.

(** The store calls of the header check. *)
Definition header_calls (name : string) (headers : list string)
    (ws : worksheet) : list store_call :=
  if (row_count ws <? 2)%nat || bool_decide (row_values ws 1 = [])
  then [Update name [headers]] else [].

(** The row [register_rsvp] appends when the clock shows [now]. *)
Definition rsvp_row `{JsonCodec} (rsvp_data : RSVPRequest) (now : datetime)
  : list pyval :=
  [PStr (rsvp_full_name rsvp_data);
   PStr (status_value (rsvp_status rsvp_data));
   PInt (rsvp_phone rsvp_data);
   match rsvp_companions rsvp_data with
   | Some (c :: cs) => PStr (json_dumps (JArr (model_dump <$> c :: cs)))
   | Some [] | None => PNone
   end;
   PStr (str_datetime now)].

Definition testimonial_row (testimonial : TestimonialRequest) (now : datetime)
  : list pyval :=
  [PStr (testimonial_full_name testimonial);
   PStr (testimonial_message testimonial);
   PStr (str_datetime now)].

(** The gift made for the [i]-th item of a batch registered in [w]: its
    timestamp is the [i]-th next reading of the clock and its identifier
    the [i]-th next draw of the generator. *)
Definition nth_gift (w : world) (i : nat) (g : GiftRequest) : Gift :=
  mkGift (gift_request_name g) (gift_request_image_url g)
         (str_uuid (uuid_source w (uuids_drawn w + i)%nat))
         true None
         (clock_source w (clock_reads w + i)%nat).

(** A header list: not empty, and its last name is not the empty text. *)
Definition header_list (headers : list string) : Prop :=
  exists h, last headers = Some h /\ h <> ""%string.

(** The header row is in place: it is empty, or it is the header list. *)
Definition header_ready (headers : list string) (ws : worksheet) : Prop :=
  row_values ws 1 = [] \/ row_values ws 1 = headers.

(** A store call that appends rows. *)
Definition is_append (c : store_call) : Prop :=
  match c with
  | AppendRow _ _ | AppendRows _ _ => True
  | _ => False
  end.

(** ** Tables

    A worksheet is a table for [headers] when its grid is the header row
    followed by rows that have one cell per header and end in a cell that
    is not empty (the timestamp, in the three tables of the service). *)

Definition full_row (n : nat) (row : list string) : Prop :=
  length row = n /\ exists s, last row = Some s /\ s <> ""%string.

Definition table (headers : list string) (ws : worksheet)
    (rows : list (list string)) : Prop :=
  cells ws = headers :: rows /\ Forall (full_row (length headers)) rows.

(** The record [get_all_records] makes of a row. *)
Definition record_of (headers row : list string) : record :=
  list_to_map (zip headers row).

(** The worksheet after the three writes of [update_gift_purchased] on row
    [r], when the clock shows [now]. *)
Definition purchased_sheet (ws : worksheet) (r : nat) (buyer : string)
    (now : datetime) : worksheet :=
  update_cell
    (update_cell (update_cell ws r 4 (PBool false)) r 5 (PStr buyer))
    r 6 (PStr (str_datetime now)).

(** ** RSVP vocabulary *)

(** What the service relies on from the [json] module: a document made of
    dumped companions parses back to itself, and the empty text is not
    JSON. *)
Definition json_lawful (J : JsonCodec) : Prop :=
  (forall cs : list Companion,
     json_loads (json_dumps (JArr (model_dump <$> cs)))
     = Some (JArr (model_dump <$> cs))) /\
  json_loads "" = None.

(** One pass of the loop of [list_rsvps] on a record of the right status. *)
Definition read_rsvp `{JsonCodec} (record : record) : result RSVP :=
  (let! companions := load_companions record in
   validate_RSVP record companions)%result.

(** The RSVP worksheet is usable: it has no cell yet, or it is a table
    whose rows all read back as RSVPs. *)
Definition rsvp_sheet_ok `{JsonCodec} (ws : worksheet) : Prop :=
  cells ws = [] \/
  exists rows,
    table rsvp_headers ws rows /\
    Forall (fun row => exists r, read_rsvp (record_of rsvp_headers row) = Ok r)
           rows.

(** The companions a listing gives back for the companions submitted. *)
Definition read_back (companions : option (list Companion))
  : option (list Companion) :=
  match companions with
  | Some (c :: cs) => Some (c :: cs)
  | Some [] | None => None
  end.


(** ** A codec for the documents of the service

    A [JsonCodec] to run the handlers with: it writes any document in the
    layout of [json.dumps] (escaping the quote and the backslash inside a
    text), and it reads the documents the service itself writes, arrays of
    dumped companions. *)

Definition dquote : ascii := ascii_of_nat 34.
Definition backslash : ascii := ascii_of_nat 92.

Fixpoint escape (s : string) : string :=
  match s with
  | EmptyString => EmptyString
  | String a s' =>
      if bool_decide (a = dquote) || bool_decide (a = backslash)
      then String backslash (String a (escape s'))
      else String a (escape s')
  end.

Definition dump_string (s : string) : string :=
  String dquote (escape s +:+ String dquote "").

Fixpoint join (sep : string) (items : list string) : string :=
  match items with
  | [] => ""
  | [x] => x
  | x :: rest => x +:+ sep +:+ join sep rest
  end.

Fixpoint dump (j : json) : string :=
  match j with
  | JNull => "null"
  | JBool true => "true"
  | JBool false => "false"
  | JInt z => str_int z
  | JStr s => dump_string s
  | JArr items => "[" +:+ join ", " (List.map dump items) +:+ "]"
  | JObj fields =>
      "{" +:+ join ", " (List.map (fun kv => dump_string kv.1 +:+ ": "
                                             +:+ dump kv.2) fields)
      +:+ "}"
  end.

Fixpoint strip_prefix (p s : string) : option string :=
  match p, s with
  | EmptyString, _ => Some s
  | String a p', String b s' =>
      if bool_decide (a = b) then strip_prefix p' s' else None
  | String _ _, EmptyString => None
  end.

(** The text up to the closing quote, and what follows the quote. *)
Fixpoint read_string (s : string) : option (string * string) :=
  match s with
  | EmptyString => None
  | String a s' =>
      if bool_decide (a = dquote) then Some (EmptyString, s')
      else if bool_decide (a = backslash) then
        match s' with
        | EmptyString => None
        | String b s'' =>
            if bool_decide (b = dquote) || bool_decide (b = backslash)
            then (fun r => (String b r.1, r.2)) <$> read_string s''
            else None
        end
      else (fun r => (String a r.1, r.2)) <$> read_string s'
  end.

Definition parse_companion (s : string) : option (Companion * string) :=
  s1 ← strip_prefix ("{" +:+ dump_string "full_name" +:+ ": "
                     +:+ String dquote "") s;
  name ← read_string s1;
  s2 ← strip_prefix (", " +:+ dump_string "person" +:+ ": "
                     +:+ String dquote "") name.2;
  person ← read_string s2;
  p ← person_of_string person.1;
  s3 ← strip_prefix "}" person.2;
  Some (mkCompanion name.1 p, s3).

(** The companions after the opening bracket, up to the closing one, which
    must end the text. *)
Fixpoint parse_companions (fuel : nat) (s : string) : option (list Companion) :=
  match fuel with
  | O => None
  | S fuel' =>
      c ← parse_companion s;
      match strip_prefix ", " c.2 with
      | Some rest => cons c.1 <$> parse_companions fuel' rest
      | None => if bool_decide (c.2 = "]"%string) then Some [c.1] else None
      end
  end.

Definition load (s : string) : option json :=
  match strip_prefix "[" s with
  | Some rest =>
      (fun cs => JArr (model_dump <$> cs)) <$>
      (if bool_decide (rest = "]"%string) then Some []
       else parse_companions (String.length rest) rest)
  | None => None
  end.

Definition companions_codec : JsonCodec :=
  {| json_dumps := dump; json_loads := load |}.

(** ** Sample worlds and requests *)

(** A clock that advances by a microsecond at every reading. *)
Definition sample_clock (n : nat) : datetime := mkDatetime 2026 11 4 9 56 0 n.


Definition sample_gift_rows : list (list string) :=
  [[str_uuid 5%N; "Blender"; "u1"; "TRUE"; ""; "2026-01-01 00:00:00+00:00"];
   [str_uuid 6%N; "Toaster"; "u2"; "TRUE"; ""; "2026-01-01 00:00:00+00:00"]].

(** A world whose gift table holds two gifts. *)
Definition gift_world : world :=
  mkWorld ∅ {["gifts" := mkWorksheet 100 (gift_headers :: sample_gift_rows)]}
          sample_clock 0 N.of_nat 0 [].



(** A world where the two secrets of the basic-auth gate are configured. *)
Definition secured_world : world :=
  mkWorld {["API_USER" := "admin"; "API_PASSWORD" := "secret"]} ∅
          sample_clock 0 N.of_nat 0 [].

Definition intruder : HTTPBasicCredentials := mkCredentials "mallory" "guess".

(** ** The worlds the service can reach *)

(** A worksheet is in order for [headers] when it has no cell yet or is a
    table under these headers. *)
Definition sheet_in_order (headers : list string) (ws : worksheet) : Prop :=
  cells ws = [] \/ exists rows, table headers ws rows.

Definition world_in_order `{JsonCodec} (w : world) : Prop :=
  rsvp_sheet_ok (sheet w "rsvp") /\
  sheet_in_order gift_headers (sheet w "gifts") /\
  sheet_in_order testimonial_headers (sheet w "testimonials").

(** The worlds reached from a spreadsheet without worksheets by any
    sequence of requests. *)
Inductive reachable `{JsonCodec} : world -> Prop :=
| reachable_start (w : world) : sheets w = ∅ -> reachable w
| reachable_step (w : world) (request : http_request) :
    reachable w -> reachable (app request w).2.


(* ================================================================== *)
(** * Part II: properties                                              *)
(* ================================================================== *)

(** ** The order on strings *)






Lemma ltb_asym (a b : string) : String.ltb a b = true -> String.ltb b a = false.
Proof.
  unfold String.ltb. rewrite (String.compare_antisym b a).
  by destruct (String.compare a b).
Qed.





Lemma str_le_total (a b : string) : str_le a b \/ str_le b a.
Proof.
  unfold str_le. destruct (String.ltb b a) eqn:E; [right|left; done].
  by apply ltb_asym.
Qed.

(** ** The stable sort *)

Section sort_keyed.
Context {A : Type}.
Implicit Types (l : list (string * A)) (k : string) (x : A).






End sort_keyed.

(** ** Comprehensions that do not raise *)




(** ** Slices and pages *)







(** ** Listing the available gifts *)







(** ** Pages that are not positive *)



(** ** The row codec *)

Lemma row_to_dict_from_ok (headers row : list string) (n a : nat) (d : record) :
  (a + n <= length headers)%nat -> (length headers <= length row)%nat ->
  exists d',
    row_to_dict_from headers row (seq a n) d = Ok d' /\
    (forall k, (forall i, (a <= i < a + n)%nat -> headers !! i <> Some k) ->
               d' !! k = d !! k) /\
    (forall i h, (a <= i < a + n)%nat -> headers !! i = Some h ->
                 (forall j, (i < j < a + n)%nat -> headers !! j <> Some h) ->
                 d' !! h = row !! i).
Proof.
  revert a d. induction n as [|n IH]; intros a d Hn Hlen; simpl.
  - exists d. split; [done|]. split; [done|]. intros; lia.
  - destruct (lookup_lt_is_Some_2 headers a) as [h Hh]; [lia|].
    destruct (lookup_lt_is_Some_2 row a) as [v Hv]; [lia|].
    rewrite Hh, Hv.
    destruct (IH (S a) (<[h := v]> d)) as (d' & Hrun & Hout & Hin); [lia|done|].
    exists d'. split; [done|]. split.
    + intros k Hk. rewrite Hout.
      * apply lookup_insert_ne. intros ->. apply (Hk a); [lia|done].
      * intros i Hi. apply Hk. lia.
    + intros i h' Hi Hh' Hlast.
      destruct (decide (i = a)) as [->|Hne].
      * assert (h' = h) as -> by congruence.
        rewrite Hout, lookup_insert_eq; [done|].
        intros j Hj. apply Hlast. lia.
      * apply Hin; [lia|done|]. intros j Hj. apply Hlast. lia.
Qed.

Lemma row_to_dict_from_short (headers row : list string) (n a : nat) (d : record) :
  (a <= length row < a + n)%nat -> (a + n <= length headers)%nat ->
  row_to_dict_from headers row (seq a n) d = Raise IndexError.
Proof.
  revert a d. induction n as [|n IH]; intros a d Hrow Hn; simpl; [lia|].
  destruct (lookup_lt_is_Some_2 headers a) as [h Hh]; [lia|].
  rewrite Hh.
  destruct (decide (a = length row)) as [->|Hne].
  - by rewrite (lookup_ge_None_2 row (length row)).
  - destruct (lookup_lt_is_Some_2 row a) as [v Hv]; [lia|].
    rewrite Hv. apply IH; lia.
Qed.

(** C8, amended: when the row is at least as long as the headers,
    [row_to_dict] returns the mapping whose keys are the header names and
    that sends [headers[i]] to [row[i]] for every [i] at which the name
    occurs for the last time (so for every [i] when the names are distinct);
    when the row is shorter, it raises [IndexError] and no other error. *)
Theorem row_to_dict_decodes (headers row : list string) :
  ((length headers <= length row)%nat ->
   exists d,
     row_to_dict headers row = Ok d /\
     (forall k, k ∉ headers -> d !! k = None) /\
     (forall i h, headers !! i = Some h ->
        (forall j, (i < j)%nat -> headers !! j <> Some h) -> d !! h = row !! i) /\
     (NoDup headers -> forall i h, headers !! i = Some h -> d !! h = row !! i)) /\
  ((length row < length headers)%nat ->
   row_to_dict headers row = Raise IndexError).
Proof.
  split.
  - intros Hlen. unfold row_to_dict.
    destruct (row_to_dict_from_ok headers row (length headers) 0 ∅)
      as (d & Hrun & Hout & Hin); [lia|done|].
    exists d. split; [done|].
    assert (Hlast : forall i h, headers !! i = Some h ->
      (forall j, (i < j)%nat -> headers !! j <> Some h) -> d !! h = row !! i).
    { intros i h Hi Hj. apply Hin; [|done|].
      - apply lookup_lt_Some in Hi. lia.
      - intros j Hlt. apply Hj. lia. }
    split; [|split; [done|]].
    + intros k Hk. rewrite Hout; [done|].
      intros i _ Hi. apply Hk. by apply list_elem_of_lookup_2 in Hi.
    + intros Hnodup i h Hi. apply Hlast; [done|].
      intros j Hlt Hj. pose proof (NoDup_lookup _ _ _ _ Hnodup Hi Hj). lia.
  - intros Hshort. apply row_to_dict_from_short; lia.
Qed.

(** C8 as stated fails when a header name is repeated: the later column
    overwrites the earlier one. *)
Lemma row_to_dict_repeated_header :
  ~ decodes_positionally ["a"; "a"] ["1"; "2"].
Proof.
  intros Hclaim. destruct Hclaim as (d & Hrun & Hd); [simpl; lia|].
  vm_compute in Hrun. injection Hrun as <-.
  specialize (Hd 0%nat "a"%string eq_refl). vm_compute in Hd. discriminate Hd.
Qed.

(** ** Reading a worksheet *)

Lemma rstrip_by_split {A} (blank : A -> bool) (l : list A) :
  exists tail, l = rstrip_by blank l ++ tail /\ Forall (fun x => blank x = true) tail.
Proof.
  induction l as [|x l (tail & Hl & Htail)]; simpl.
  - by exists [].
  - destruct (rstrip_by blank l) as [|y rest] eqn:Hr.
    + destruct (blank x) eqn:Hx.
      * exists (x :: l). split; [done|]. simpl in Hl. subst tail. by constructor.
      * exists tail. simpl in *. by subst.
    + exists tail. simpl in *. by rewrite Hl at 1.
Qed.

Lemma rstrip_by_last {A} (blank : A -> bool) (l : list A) (x : A) :
  last (rstrip_by blank l) = Some x -> blank x = false.
Proof.
  induction l as [|y l IH]; simpl; [done|].
  destruct (rstrip_by blank l) as [|z rest] eqn:Hr.
  - destruct (blank y) eqn:Hy; simpl; [done|]. by intros [= <-].
  - rewrite last_cons_cons. apply IH.
Qed.

Lemma rstrip_by_id {A} (blank : A -> bool) (l : list A) :
  (forall x, last l = Some x -> blank x = false) -> rstrip_by blank l = l.
Proof.
  induction l as [|y l IH]; simpl; [done|]. intros Hlast.
  destruct l as [|z l].
  - simpl. by rewrite (Hlast y).
  - rewrite IH; [done|]. intros x Hx. apply Hlast. by rewrite last_cons_cons.
Qed.

Lemma rstrip_by_lookup {A} (blank : A -> bool) (l : list A) (i : nat) (x : A) :
  rstrip_by blank l !! i = Some x -> l !! i = Some x.
Proof.
  destruct (rstrip_by_split blank l) as (tail & Hl & _).
  intros Hi. rewrite Hl. by apply lookup_app_l_Some.
Qed.

Lemma rstrip_by_lookup_keep {A} (blank : A -> bool) (l : list A) (i : nat) (x : A) :
  l !! i = Some x -> blank x = false -> rstrip_by blank l !! i = Some x.
Proof.
  destruct (rstrip_by_split blank l) as (tail & Hl & Htail).
  intros Hi Hx. rewrite Hl in Hi.
  apply lookup_app_Some in Hi as [Hi|[_ Hi]]; [done|].
  apply list_elem_of_lookup_2 in Hi.
  rewrite Forall_forall in Htail. rewrite (Htail x Hi) in Hx. done.
Qed.

Lemma blank_cell_true (s : string) : blank_cell s = true <-> s = ""%string.
Proof. unfold blank_cell. apply bool_decide_eq_true. Qed.

Lemma blank_cell_false (s : string) : blank_cell s = false <-> s <> ""%string.
Proof. unfold blank_cell. apply bool_decide_eq_false. Qed.

Lemma blank_row_lookup (row : list string) (c : nat) :
  blank_row row = true -> default ""%string (row !! c) = ""%string.
Proof.
  unfold blank_row. rewrite forallb_forall. intros Hrow.
  destruct (row !! c) as [s|] eqn:Hc; [|done]. simpl.
  apply blank_cell_true, Hrow, list_elem_of_In. by eapply list_elem_of_lookup_2.
Qed.

Lemma blank_row_false (row : list string) (c : nat) (s : string) :
  row !! c = Some s -> s <> ""%string -> blank_row row = false.
Proof.
  intros Hc Hs. destruct (blank_row row) eqn:Hb; [|done].
  pose proof (blank_row_lookup row c Hb) as Hd. rewrite Hc in Hd. done.
Qed.

(** On column 1, the padded values show a text that is not empty exactly
    where the grid holds it. *)
Lemma get_all_values_column_1 (ws : worksheet) (i : nat) (q : string) :
  q <> ""%string ->
  (exists row, get_all_values ws !! i = Some row /\ row !! 0%nat = Some q)
  <-> cell_at ws (S i) 1 = q.
Proof.
  intros Hq. unfold get_all_values, fill_gaps, values_of, cell_at, row_at. simpl.
  set (width := max_list _). rewrite !list_lookup_fmap. split.
  - intros (row & Hrow & Hcell).
    destruct (rstrip_by blank_row (cells ws) !! i) as [row0|] eqn:Hrow0;
      [|done].
    simpl in Hrow. injection Hrow as <-.
    rewrite (rstrip_by_lookup _ _ _ _ Hrow0). simpl.
    apply lookup_app_Some in Hcell as [Hcell|[_ Hcell]].
    + by rewrite (rstrip_by_lookup _ _ _ _ Hcell).
    + apply lookup_replicate in Hcell as [Hempty _]. by destruct Hq.
  - intros Hcell.
    destruct (cells ws !! i) as [row0|] eqn:Hrow0; [|done]. simpl in Hcell.
    destruct (row0 !! 0%nat) as [s|] eqn:Hs; [|done]. simpl in Hcell. subst s.
    rewrite (rstrip_by_lookup_keep blank_row _ _ row0 Hrow0)
      by (by eapply blank_row_false).
    simpl. eexists. split; [done|].
    apply lookup_app_l_Some, rstrip_by_lookup_keep; [done|].
    by apply blank_cell_false.
Qed.

Lemma find_in_column_1_None (ws : worksheet) (q : string) :
  q <> ""%string ->
  find_in_column_1 ws q = None
  <-> forall r, (1 <= r)%nat -> cell_at ws r 1 <> q.
Proof.
  intros Hq. unfold find_in_column_1.
  rewrite fmap_None, list_find_None, Forall_forall. split.
  - intros Hnone [|i] Hr Hcell; [lia|].
    apply (get_all_values_column_1 ws i q Hq) in Hcell as (row & Hrow & Hcell).
    apply (Hnone row); [by eapply list_elem_of_lookup_2|done].
  - intros Hnone row [i Hrow]%list_elem_of_lookup_1 Hcell.
    apply (Hnone (S i)); [lia|].
    apply (get_all_values_column_1 ws i q Hq). eauto.
Qed.

Lemma find_in_column_1_Some (ws : worksheet) (q : string) (r : nat) :
  q <> ""%string ->
  find_in_column_1 ws q = Some r
  <-> (1 <= r)%nat /\ cell_at ws r 1 = q /\
      forall r', (1 <= r' < r)%nat -> cell_at ws r' 1 <> q.
Proof.
  intros Hq. unfold find_in_column_1. rewrite fmap_Some. split.
  - intros ([i row] & Hfind & ->). simpl.
    apply list_find_Some in Hfind as (Hrow & Hcell & Hfirst).
    split; [lia|]. split.
    + apply (get_all_values_column_1 ws i q Hq). eauto.
    + intros [|j] Hj Hcell'; [lia|].
      apply (get_all_values_column_1 ws j q Hq) in Hcell' as (row' & Hrow' & Hc).
      apply (Hfirst j row'); [done|lia|done].
  - intros (Hr & Hcell & Hfirst). destruct r as [|i]; [lia|].
    apply (get_all_values_column_1 ws i q Hq) in Hcell as (row & Hrow & Hcell).
    exists (i, row). split; [|done].
    apply list_find_Some. split; [done|]. split; [done|].
    intros j row' Hrow' Hj Hc. apply (Hfirst (S j)); [lia|].
    apply (get_all_values_column_1 ws j q Hq). eauto.
Qed.

(** ** Texts that are never empty *)

Lemma append_cons (a : ascii) (s t : string) :
  String a s +:+ t = String a (s +:+ t).
Proof. reflexivity. Qed.



Lemma string_length_app (s1 s2 : string) :
  String.length (s1 +:+ s2) = (String.length s1 + String.length s2)%nat.
Proof.
  induction s1 as [|a s1 IH]; [done|].
  change (S (String.length (s1 +:+ s2))
          = S (String.length s1 + String.length s2)).
  by rewrite IH.
Qed.

Lemma str_uuid_length (u : UUID) : (4 <= String.length (str_uuid u))%nat.
Proof.
  unfold str_uuid. cbv zeta. rewrite !string_length_app.
  change (String.length "-") with 1%nat. lia.
Qed.

Lemma str_uuid_nonempty (u : UUID) : str_uuid u <> ""%string.
Proof.
  intros H. pose proof (str_uuid_length u) as Hlen. rewrite H in Hlen.
  simpl in Hlen. lia.
Qed.

Lemma str_uuid_not_id (u : UUID) : str_uuid u <> "id"%string.
Proof.
  intros H. pose proof (str_uuid_length u) as Hlen. rewrite H in Hlen.
  simpl in Hlen. lia.
Qed.

Lemma str_datetime_nonempty (d : datetime) : str_datetime d <> ""%string.
Proof.
  intros H. apply (f_equal String.length) in H. revert H.
  unfold str_datetime. rewrite !string_length_app.
  change (String.length "+00:00") with 6%nat. simpl. lia.
Qed.

(** ** Writing a cell *)

Lemma default_lookup_pad {A} (d : A) (l : list A) (k j : nat) :
  default d ((l ++ replicate k d) !! j) = default d (l !! j).
Proof.
  destruct (decide (j < length l)%nat) as [Hj|Hj].
  - by rewrite lookup_app_l.
  - rewrite lookup_app_r, (lookup_ge_None_2 l j) by lia. simpl.
    destruct (replicate k d !! (j - length l)%nat) as [x|] eqn:Hx; [|done].
    by apply lookup_replicate in Hx as [-> _].
Qed.

Lemma cell_of_set_cell (rows : list (list string)) (r c : nat) (text : string)
    (r' c' : nat) :
  (1 <= r)%nat -> (1 <= c)%nat -> (1 <= r')%nat -> (1 <= c')%nat ->
  default ""%string (default [] (set_cell r c text rows !! pred r') !! pred c')
  = if decide (r' = r /\ c' = c) then text
    else default ""%string (default [] (rows !! pred r') !! pred c').
Proof.
  intros Hr Hc Hr' Hc'. unfold set_cell.
  set (padded := rows ++ replicate (r - length rows) []).
  assert (Hlen : (pred r < length padded)%nat).
  { unfold padded. rewrite length_app, length_replicate. lia. }
  destruct (decide (r' = r)) as [->|Hne].
  - destruct (lookup_lt_is_Some_2 padded (pred r) Hlen) as [row Hrow].
    rewrite list_lookup_alter_eq, Hrow. simpl.
    assert (Hrow' : default [] (rows !! pred r) = row).
    { rewrite <-(default_lookup_pad [] rows (r - length rows)).
      fold padded. by rewrite Hrow. }
    rewrite Hrow'.
    destruct (decide (c' = c)) as [->|Hnec].
    + rewrite decide_True by done.
      rewrite list_lookup_insert_eq; [done|].
      rewrite length_app, length_replicate. lia.
    + rewrite decide_False by tauto.
      rewrite list_lookup_insert_ne by lia.
      apply default_lookup_pad.
  - rewrite decide_False by tauto.
    rewrite list_lookup_alter_ne by lia.
    unfold padded. by rewrite default_lookup_pad.
Qed.

Lemma cell_at_update_cell (ws : worksheet) (r c : nat) (v : pyval) (r' c' : nat) :
  (1 <= r)%nat -> (1 <= c)%nat -> (1 <= r')%nat -> (1 <= c')%nat ->
  cell_at (update_cell ws r c v) r' c'
  = if decide (r' = r /\ c' = c) then render v else cell_at ws r' c'.
Proof. intros. unfold cell_at, row_at, update_cell. simpl. by apply cell_of_set_cell. Qed.

(** ** Running a handler *)

Lemma get_worksheet_run (name : string) (w : world) :
  exists w0 pre,
    get_worksheet name w = (Ok name, w0) /\
    sheets w0 = <[name := sheet w name]> (sheets w) /\
    environ w0 = environ w /\
    clock_source w0 = clock_source w /\ clock_reads w0 = clock_reads w /\
    uuid_source w0 = uuid_source w /\ uuids_drawn w0 = uuids_drawn w /\
    calls w0 = calls w ++ pre /\
    (pre = [] \/ pre = [AddWorksheet name]).
Proof.
  unfold get_worksheet, sheet.
  destruct (sheets w !! name) as [s|] eqn:Hs; simpl.
  - exists w, []. rewrite insert_id, app_nil_r by done. naive_solver.
  - eexists _, [AddWorksheet name]. simpl. naive_solver.
Qed.

Lemma sheet_insert (m : gmap string worksheet) (name title : string)
    (s : worksheet) e cs cr us ud cl :
  sheet (mkWorld e (<[name := s]> m) cs cr us ud cl) title
  = if decide (name = title) then s
    else sheet (mkWorld e m cs cr us ud cl) title.
Proof.
  unfold sheet. simpl. rewrite lookup_insert. by destruct (decide (name = title)).
Qed.

Lemma sheet_same_sheets (w : world) (title : string) e cs cr us ud cl :
  sheet (mkWorld e (sheets w) cs cr us ud cl) title = sheet w title.
Proof. done. Qed.

Lemma sheet_opened (w w0 : world) (name title : string) :
  sheets w0 = <[name := sheet w name]> (sheets w) -> sheet w0 title = sheet w title.
Proof.
  intros Hs. unfold sheet at 1. rewrite Hs, lookup_insert.
  destruct (decide (name = title)) as [->|]; done.
Qed.

(** ** Marking a gift as purchased *)

Lemma update_gift_purchased_run (w : world) (purchase : GiftPurchaseRequest) :
  (find_in_column_1 (sheet w "gifts") (str_uuid (purchase_id purchase)) = None ->
   (update_gift_purchased purchase w).1
   = Raise (HTTPException 404 "Gift not found." [])) /\
  (forall r,
     find_in_column_1 (sheet w "gifts") (str_uuid (purchase_id purchase))
     = Some r ->
     exists msg w',
       update_gift_purchased purchase w = (Ok msg, w') /\
       sheet w' "gifts"
       = purchased_sheet (sheet w "gifts") r (purchase_purchased purchase)
                         (clock_source w (clock_reads w)) /\
       (forall title, title <> "gifts"%string -> sheet w' title = sheet w title)).
Proof.
  destruct (get_worksheet_run "gifts" w)
    as (w0 & pre & Hrun & Hsheets & He & Hcs & Hcr & Hus & Hud & Hcalls & Hpre).
  assert (Hws : forall title, sheet w0 title = sheet w title)
    by (intros; by eapply sheet_opened).
  unfold update_gift_purchased, bind, read. rewrite Hrun. cbv beta iota.
  rewrite (Hws "gifts"%string).
  split.
  - intros ->. done.
  - intros r ->. unfold write, datetime_now, ret. cbv beta iota.
    eexists _, _. split; [done|].
    cbn [calls clock_source clock_reads uuid_source uuids_drawn environ sheets].
    rewrite !sheet_insert, !decide_True by done.
    rewrite ?sheet_same_sheets, (Hws "gifts"%string), Hcs, Hcr.
    split; [done|].
    intros title Hne. rewrite !sheet_insert, !decide_False by done.
    rewrite ?sheet_same_sheets. apply Hws.
Qed.

Lemma cell_at_purchased_sheet (ws : worksheet) (r : nat) (buyer : string)
    (now : datetime) (r' c' : nat) :
  (1 <= r)%nat -> (1 <= r')%nat -> (1 <= c')%nat ->
  cell_at (purchased_sheet ws r buyer now) r' c'
  = if decide (r' = r /\ c' = 6%nat) then str_datetime now
    else if decide (r' = r /\ c' = 5%nat) then buyer
    else if decide (r' = r /\ c' = 4%nat) then "FALSE"%string
    else cell_at ws r' c'.
Proof.
  intros Hr Hr' Hc'. unfold purchased_sheet.
  by rewrite !cell_at_update_cell by lia.
Qed.

(** C3: [update_gift_purchased] raises the not-found error exactly when no
    row has the identifier in its first cell; otherwise, for the first such
    row, it returns, the cells 4, 5 and 6 of that row hold FALSE, the buyer
    and the time of the clock, and every other cell of the sheet, and every
    other sheet, is as before. *)
Theorem mark_purchased_spec (w : world) (purchase : GiftPurchaseRequest) :
  let q := str_uuid (purchase_id purchase) in
  let ws := sheet w "gifts" in
  ((update_gift_purchased purchase w).1
     = Raise (HTTPException 404 "Gift not found." [])
   <-> forall r, (1 <= r)%nat -> cell_at ws r 1 <> q) /\
  (forall r, (1 <= r)%nat -> cell_at ws r 1 = q ->
     (forall r', (1 <= r' < r)%nat -> cell_at ws r' 1 <> q) ->
     exists msg w',
       update_gift_purchased purchase w = (Ok msg, w') /\
       cell_at (sheet w' "gifts") r 4 = "FALSE"%string /\
       cell_at (sheet w' "gifts") r 5 = purchase_purchased purchase /\
       cell_at (sheet w' "gifts") r 6
         = str_datetime (clock_source w (clock_reads w)) /\
       (forall r' c', (1 <= r')%nat -> (1 <= c')%nat ->
          ~ (r' = r /\ (c' = 4 \/ c' = 5 \/ c' = 6)%nat) ->
          cell_at (sheet w' "gifts") r' c' = cell_at ws r' c') /\
       (forall title, title <> "gifts"%string ->
          sheet w' title = sheet w title)).
Proof.
  intros q ws.
  assert (Hq : q <> ""%string) by apply str_uuid_nonempty.
  destruct (update_gift_purchased_run w purchase) as [Hmiss Hhit].
  fold q ws in Hmiss, Hhit.
  split.
  - split.
    + intros Hraise. apply find_in_column_1_None; [done|].
      destruct (find_in_column_1 ws q) as [r|] eqn:Hfind; [|done].
      destruct (Hhit r eq_refl) as (msg & w' & Hrun & _).
      rewrite Hrun in Hraise. discriminate Hraise.
    + intros Hnone. by apply Hmiss, find_in_column_1_None.
  - intros r Hr Hcell Hfirst.
    destruct (Hhit r) as (msg & w' & Hrun & Hsheet & Hother).
    { by apply find_in_column_1_Some. }
    exists msg, w'. split; [done|]. rewrite Hsheet.
    rewrite !cell_at_purchased_sheet by lia.
    split; [|split; [|split; [|split; [|done]]]].
    + rewrite decide_False by lia. rewrite decide_False by lia.
      by rewrite decide_True.
    + rewrite decide_False by lia. by rewrite decide_True.
    + by rewrite decide_True.
    + intros r' c' Hr' Hc' Hnot.
      rewrite cell_at_purchased_sheet by lia.
      rewrite !decide_False; [done|lia..].
Qed.

(** ** The header row *)




Lemma header_list_rstrip (headers : list string) :
  header_list headers -> rstrip_by blank_cell headers = headers.
Proof.
  intros (h & Hh & Hne). apply rstrip_by_id. intros x Hx.
  apply blank_cell_false. congruence.
Qed.




Lemma ensure_headers_run (name : string) (headers : list string) (w : world) :
  exists w1,
    ensure_headers name headers w = (Ok tt, w1) /\
    sheet w1 name = headed headers (sheet w name) /\
    (forall title, title <> name -> sheet w1 title = sheet w title) /\
    environ w1 = environ w /\
    clock_source w1 = clock_source w /\ clock_reads w1 = clock_reads w /\
    uuid_source w1 = uuid_source w /\ uuids_drawn w1 = uuids_drawn w /\
    calls w1 = calls w ++ header_calls name headers (sheet w name).
Proof.
  unfold ensure_headers, bind, read, headed, header_calls.
  destruct ((row_count (sheet w name) <? 2)%nat
            || bool_decide (row_values (sheet w name) 1 = [])).
  - unfold write. eexists. split; [done|]. simpl.
    rewrite sheet_insert, decide_True by done.
    split; [done|]. split; [|done].
    intros title Hne. by rewrite sheet_insert, decide_False.
  - unfold ret. exists w. by rewrite app_nil_r.
Qed.


(** ** Running the registrations *)

Lemma new_gifts_run (gifts : list GiftRequest) (w : world) :
  exists w',
    new_gifts gifts w = (Ok (imap (nth_gift w) gifts), w') /\
    sheets w' = sheets w /\ environ w' = environ w /\ calls w' = calls w /\
    clock_source w' = clock_source w /\ uuid_source w' = uuid_source w /\
    clock_reads w' = (clock_reads w + length gifts)%nat /\
    uuids_drawn w' = (uuids_drawn w + length gifts)%nat.
Proof.
  revert w. induction gifts as [|g gifts IH]; intros w; simpl.
  - exists w. unfold ret. repeat split; try done; lia.
  - unfold bind, datetime_now, new_Gift, uuid4, ret. simpl.
    match goal with |- context [new_gifts gifts ?w1] =>
      destruct (IH w1) as (w' & Hrun & Hs & He & Hc & Hcs & Hus & Hcr & Hud)
    end.
    simpl in *. rewrite Hrun. exists w'.
    split.
    { do 2 f_equal. f_equal.
      - unfold nth_gift. by rewrite !Nat.add_0_r.
      - apply imap_ext. intros i g' _. unfold nth_gift. simpl.
        by rewrite !Nat.add_succ_r. }
    repeat split; try done; lia.
Qed.

Lemma register_rsvp_run `{JsonCodec} (rsvp_data : RSVPRequest) (w : world) :
  exists w' pre,
    register_rsvp rsvp_data w = (Ok "RSVP registered successfully."%string, w') /\
    sheet w' "rsvp"
      = append_row (headed rsvp_headers (sheet w "rsvp"))
                   (rsvp_row rsvp_data (clock_source w (clock_reads w))) /\
    (forall title, title <> "rsvp"%string -> sheet w' title = sheet w title) /\
    calls w'
      = calls w ++ pre ++ header_calls "rsvp" rsvp_headers (sheet w "rsvp")
        ++ [AppendRow "rsvp"
              (rsvp_row rsvp_data (clock_source w (clock_reads w)))] /\
    (pre = [] \/ pre = [AddWorksheet "rsvp"]) /\
    clock_source w' = clock_source w /\ clock_reads w' = S (clock_reads w) /\
    uuid_source w' = uuid_source w /\ uuids_drawn w' = uuids_drawn w /\
    environ w' = environ w.
Proof.
  destruct (get_worksheet_run "rsvp" w)
    as (w0 & pre & Hrun & Hsheets & He & Hcs & Hcr & Hus & Hud & Hcalls & Hpre).
  assert (Hws : forall title, sheet w0 title = sheet w title)
    by (intros; by eapply sheet_opened).
  destruct (ensure_headers_run "rsvp" rsvp_headers w0)
    as (w1 & Hrun1 & Hsheet1 & Hother1 & He1 & Hcs1 & Hcr1 & Hus1 & Hud1 & Hcalls1).
  unfold register_rsvp, bind. rewrite Hrun, Hrun1.
  unfold datetime_now, write, ret. cbv beta iota.
  eexists _, pre. split; [done|]. cbn [calls clock_source clock_reads
    uuid_source uuids_drawn environ sheets].
  rewrite sheet_insert, decide_True by done.
  rewrite !sheet_same_sheets.
  rewrite Hsheet1, Hcalls1, Hcalls, !Hws, Hcs1, Hcr1, Hcs, Hcr, <-!app_assoc.
  split; [done|]. split.
  { intros title Hne. rewrite sheet_insert, decide_False by done.
    rewrite sheet_same_sheets, Hother1 by done. apply Hws. }
  split; [done|]. split; [done|]. repeat split; congruence.
Qed.

Lemma register_testimonial_run (testimonial : TestimonialRequest) (w : world) :
  exists w' pre,
    register_testimonial testimonial w
      = (Ok "Testimonial registered successfully."%string, w') /\
    sheet w' "testimonials"
      = append_row (headed testimonial_headers (sheet w "testimonials"))
                   (testimonial_row testimonial (clock_source w (clock_reads w))) /\
    (forall title, title <> "testimonials"%string ->
       sheet w' title = sheet w title) /\
    calls w'
      = calls w ++ pre
        ++ header_calls "testimonials" testimonial_headers
             (sheet w "testimonials")
        ++ [AppendRow "testimonials"
              (testimonial_row testimonial (clock_source w (clock_reads w)))] /\
    (pre = [] \/ pre = [AddWorksheet "testimonials"]).
Proof.
  destruct (get_worksheet_run "testimonials" w)
    as (w0 & pre & Hrun & Hsheets & He & Hcs & Hcr & Hus & Hud & Hcalls & Hpre).
  assert (Hws : forall title, sheet w0 title = sheet w title)
    by (intros; by eapply sheet_opened).
  destruct (ensure_headers_run "testimonials" testimonial_headers w0)
    as (w1 & Hrun1 & Hsheet1 & Hother1 & He1 & Hcs1 & Hcr1 & Hus1 & Hud1 & Hcalls1).
  unfold register_testimonial, bind. rewrite Hrun, Hrun1.
  unfold datetime_now, write, ret. cbv beta iota.
  eexists _, pre. split; [done|]. cbn [calls clock_source clock_reads
    uuid_source uuids_drawn environ sheets].
  rewrite sheet_insert, decide_True by done.
  rewrite !sheet_same_sheets.
  rewrite Hsheet1, Hcalls1, Hcalls, !Hws, Hcs1, Hcr1, Hcs, Hcr, <-!app_assoc.
  split; [done|]. split; [|done].
  intros title Hne. rewrite sheet_insert, decide_False by done.
  rewrite sheet_same_sheets, Hother1 by done. apply Hws.
Qed.

Lemma register_gifts_run (gifts : list GiftRequest) (w : world) :
  exists w' pre,
    register_gifts gifts w
      = (Ok (str_int (Z.of_nat (length gifts))
             +:+ " gifts registered successfully."), w') /\
    sheet w' "gifts"
      = append_rows (headed gift_headers (sheet w "gifts"))
                    (gift_row <$> imap (nth_gift w) gifts) /\
    (forall title, title <> "gifts"%string -> sheet w' title = sheet w title) /\
    calls w'
      = calls w ++ pre ++ header_calls "gifts" gift_headers (sheet w "gifts")
        ++ [AppendRows "gifts" (gift_row <$> imap (nth_gift w) gifts)] /\
    (pre = [] \/ pre = [AddWorksheet "gifts"]).
Proof.
  destruct (get_worksheet_run "gifts" w)
    as (w0 & pre & Hrun & Hsheets & He & Hcs & Hcr & Hus & Hud & Hcalls & Hpre).
  assert (Hws : forall title, sheet w0 title = sheet w title)
    by (intros; by eapply sheet_opened).
  destruct (ensure_headers_run "gifts" gift_headers w0)
    as (w1 & Hrun1 & Hsheet1 & Hother1 & He1 & Hcs1 & Hcr1 & Hus1 & Hud1 & Hcalls1).
  destruct (new_gifts_run gifts w1)
    as (w2 & Hrun2 & Hsheets2 & He2 & Hcalls2 & Hcs2 & Hus2 & Hcr2 & Hud2).
  assert (Hmade : imap (nth_gift w1) gifts = imap (nth_gift w) gifts).
  { apply imap_ext. intros i g _. unfold nth_gift. congruence. }
  rewrite Hmade in Hrun2.
  assert (Hws2 : forall title, sheet w2 title = sheet w1 title).
  { intros title. unfold sheet. by rewrite Hsheets2. }
  unfold register_gifts, bind. rewrite Hrun, Hrun1, Hrun2.
  unfold write, ret. cbv beta iota.
  eexists _, pre. split; [done|]. cbn [calls clock_source clock_reads
    uuid_source uuids_drawn environ sheets].
  rewrite sheet_insert, decide_True by done.
  rewrite Hws2, Hsheet1, Hcalls2, Hcalls1, Hcalls, !Hws, <-!app_assoc.
  split; [done|]. split; [|done].
  intros title Hne. rewrite sheet_insert, decide_False by done.
  rewrite sheet_same_sheets, Hws2, Hother1 by done. apply Hws.
Qed.

Lemma header_list_rsvp : header_list rsvp_headers.
Proof. by exists "created_at"%string. Qed.

Lemma header_list_gift : header_list gift_headers.
Proof. by exists "updated_at"%string. Qed.

Lemma header_list_testimonial : header_list testimonial_headers.
Proof. by exists "created_at"%string. Qed.




(** ** Identifiers are distinct when the draws are *)

Lemma list_ascii_app (s1 s2 : string) :
  list_ascii_of_string (s1 +:+ s2)
  = list_ascii_of_string s1 ++ list_ascii_of_string s2.
Proof.
  induction s1 as [|a s1 IH]; [done|].
  rewrite append_cons. simpl. by rewrite IH.
Qed.

Lemma list_ascii_substring (n m : nat) (s : string) :
  list_ascii_of_string (substring n m s)
  = take m (drop n (list_ascii_of_string s)).
Proof.
  revert n m.
  induction s as [|a s IH]; intros [|n] [|m]; simpl; rewrite ?IH; done.
Qed.

Lemma list_ascii_inj (s1 s2 : string) :
  list_ascii_of_string s1 = list_ascii_of_string s2 -> s1 = s2.
Proof.
  intros Heq. apply (f_equal string_of_list_ascii) in Heq.
  by rewrite !string_of_list_ascii_of_string in Heq.
Qed.

Lemma list_ascii_length (s : string) :
  length (list_ascii_of_string s) = String.length s.
Proof. induction s as [|a s IH]; simpl; [done|]. by rewrite IH. Qed.

Lemma hex_of_length (width : nat) (n : N) : String.length (hex_of width n) = width.
Proof.
  revert n. induction width as [|w IH]; intros n; [done|].
  simpl hex_of. rewrite string_length_app, IH. simpl. lia.
Qed.

Lemma hex_value_digit (n : N) : (n < 16)%N -> hex_value (hex_digit n) = n.
Proof.
  intros Hn.
  assert (Hall : Forall (fun k => hex_value (hex_digit (N.of_nat k)) = N.of_nat k)
                        (seq 0 16)).
  { apply (bool_decide_unpack _). vm_compute. exact I. }
  rewrite Forall_forall in Hall.
  specialize (Hall (N.to_nat n)). rewrite N2Nat.id in Hall. apply Hall.
  apply elem_of_seq. lia.
Qed.

Lemma hex_of_inj (width : nat) (n m : N) :
  hex_of width n = hex_of width m ->
  (n mod 16 ^ N.of_nat width = m mod 16 ^ N.of_nat width)%N.
Proof.
  revert n m. induction width as [|w IH]; intros n m Heq.
  - by rewrite !N.mod_1_r.
  - simpl hex_of in Heq.
    apply (f_equal list_ascii_of_string) in Heq.
    rewrite !list_ascii_app in Heq. simpl in Heq.
    apply app_inj_tail in Heq as [Hhigh Hlow].
    apply list_ascii_inj, IH in Hhigh.
    apply (f_equal hex_value) in Hlow.
    rewrite !hex_value_digit in Hlow by (apply N.mod_lt; lia).
    rewrite Nat2N.inj_succ, N.pow_succ_r'.
    rewrite !N.Div0.mod_mul_r. by rewrite Hhigh, Hlow.
Qed.

Lemma str_uuid_hex (u v : UUID) :
  str_uuid u = str_uuid v -> hex_of 32 u = hex_of 32 v.
Proof.
  intros Heq. apply list_ascii_inj.
  apply (f_equal list_ascii_of_string) in Heq. unfold str_uuid in Heq.
  cbv zeta in Heq. rewrite !list_ascii_app, !list_ascii_substring in Heq.
  set (h := list_ascii_of_string (hex_of 32 u)) in *.
  set (k := list_ascii_of_string (hex_of 32 v)) in *.
  assert (Hh : length h = 32%nat)
    by (unfold h; by rewrite list_ascii_length, hex_of_length).
  assert (Hk : length k = 32%nat)
    by (unfold k; by rewrite list_ascii_length, hex_of_length).
  change (list_ascii_of_string "-") with ["-"%char] in Heq.
  clearbody h k.
  assert (Hcut : forall (a b a' b' : list ascii),
            length a = length a' ->
            a ++ "-"%char :: b = a' ++ "-"%char :: b' -> a = a' /\ b = b').
  { intros a b a' b' Hlen Hab. apply app_inj_1 in Hab as [-> Hab]; [|done].
    by injection Hab as ->. }
  simpl in Heq.
  apply Hcut in Heq as [H1 Heq]; [|rewrite !length_take, !length_drop; lia].
  apply Hcut in Heq as [H2 Heq]; [|rewrite !length_take, !length_drop; lia].
  apply Hcut in Heq as [H3 Heq]; [|rewrite !length_take, !length_drop; lia].
  apply Hcut in Heq as [H4 H5]; [|rewrite !length_take, !length_drop; lia].
  rewrite !drop_0 in H1.
  rewrite <-(take_drop 8 h), <-(take_drop 8 k), H1. f_equal.
  rewrite <-(take_drop 4 (drop 8 h)), <-(take_drop 4 (drop 8 k)), H2. f_equal.
  rewrite !drop_drop. simpl.
  rewrite <-(take_drop 4 (drop 12 h)), <-(take_drop 4 (drop 12 k)), H3. f_equal.
  rewrite !drop_drop. simpl.
  rewrite <-(take_drop 4 (drop 16 h)), <-(take_drop 4 (drop 16 k)), H4. f_equal.
  rewrite !drop_drop. simpl.
  rewrite <-(take_ge (drop 20 h) 12), <-(take_ge (drop 20 k) 12)
    by (rewrite length_drop; lia).
  exact H5.
Qed.

Lemma str_uuid_inj (u v : UUID) :
  (u < 2 ^ 128)%N -> (v < 2 ^ 128)%N -> str_uuid u = str_uuid v -> u = v.
Proof.
  intros Hu Hv Heq. apply str_uuid_hex, hex_of_inj in Heq.
  change (16 ^ N.of_nat 32)%N with (2 ^ 128)%N in Heq.
  by rewrite !N.mod_small in Heq.
Qed.

(** ** Registering gifts *)

Lemma header_calls_no_append (name : string) (headers : list string)
    (ws : worksheet) :
  Forall (fun c => ~ is_append c) (header_calls name headers ws).
Proof.
  unfold header_calls.
  destruct (_ || _); repeat constructor; simpl; tauto.
Qed.

(** C5: for every batch, [register_gifts] makes one gift per item, each
    with the next identifier of the generator, available, not purchased and
    stamped with the clock; it appends their rows, one per item and in
    order, below the data of the sheet in a single [append_rows] call; the
    identifiers are pairwise distinct whenever the generator's draws are
    distinct 128-bit values; and the acknowledgment counts the items of the
    batch. *)
Theorem register_gifts_spec (gifts : list GiftRequest) (w : world) :
  exists w' made,
    register_gifts gifts w
      = (Ok (str_int (Z.of_nat (length gifts))
             +:+ " gifts registered successfully."), w') /\
    length made = length gifts /\
    (forall i g, gifts !! i = Some g ->
       made !! i
       = Some (mkGift (gift_request_name g) (gift_request_image_url g)
                 (str_uuid (uuid_source w (uuids_drawn w + i)%nat))
                 true None
                 (clock_source w (clock_reads w + i)%nat))) /\
    (exists pre,
       calls w' = calls w ++ pre ++ [AppendRows "gifts" (gift_row <$> made)] /\
       Forall (fun c => ~ is_append c) pre) /\
    cells (sheet w' "gifts")
      = rstrip_by blank_row (cells (headed gift_headers (sheet w "gifts")))
        ++ ((fun gift =>
               [gift_id gift; gift_name gift; gift_image_url gift;
                "TRUE"; ""; str_datetime (gift_updated_at gift)]%string)
            <$> made) /\
    ((forall i, (i < length gifts)%nat ->
        (uuid_source w (uuids_drawn w + i)%nat < 2 ^ 128)%N) ->
     NoDup ((fun i => uuid_source w (uuids_drawn w + i)%nat)
            <$> seq 0 (length gifts)) ->
     NoDup (gift_id <$> made)).
Proof.
  destruct (register_gifts_run gifts w)
    as (w' & pre & Hrun & Hsheet & _ & Hcalls & Hpre).
  exists w', (imap (nth_gift w) gifts).
  split; [done|]. split; [by rewrite length_imap|]. split.
  { intros i g Hg. by rewrite list_lookup_imap, Hg. }
  split.
  { exists (pre ++ header_calls "gifts" gift_headers (sheet w "gifts")).
    rewrite Hcalls, <-!app_assoc. split; [done|].
    apply Forall_app. split; [|apply header_calls_no_append].
    destruct Hpre as [->| ->]; repeat constructor; simpl; tauto. }
  split.
  { rewrite Hsheet. unfold append_rows. simpl. f_equal.
    rewrite <-list_fmap_compose. apply list_fmap_ext.
    intros i gift Hgift. rewrite list_lookup_imap in Hgift.
    destruct (gifts !! i) as [g|]; [|done]. by injection Hgift as <-. }
  intros Hbits Hnodup.
  replace (gift_id <$> imap (nth_gift w) gifts)
    with (str_uuid <$> ((fun i => uuid_source w (uuids_drawn w + i)%nat)
                        <$> seq 0 (length gifts))).
  - apply NoDup_fmap_2_strong; [|done].
    intros u v (i & -> & Hi%elem_of_seq)%list_elem_of_fmap
               (j & -> & Hj%elem_of_seq)%list_elem_of_fmap.
    apply str_uuid_inj; apply Hbits; lia.
  - apply list_eq. intros i.
    rewrite !list_lookup_fmap, list_lookup_imap.
    destruct (gifts !! i) as [g|] eqn:Hg; simpl.
    + rewrite lookup_seq_lt by (by eapply lookup_lt_Some). done.
    + rewrite lookup_seq_ge by (by apply lookup_ge_None). done.
Qed.

(** A batch of two, in a world with no sheet, a clock that ticks and a
    generator that counts. *)
Lemma register_gifts_spec_witness :
  NoDup [0%N; 1%N] /\
  exists w' made,
    register_gifts [mkGiftRequest "Blender" "u1"; mkGiftRequest "Toaster" "u2"]
                   (mkWorld ∅ ∅ (fun n => mkDatetime 2026 11 4 9 56 n 0) 0
                            N.of_nat 0 [])
    = (Ok "2 gifts registered successfully."%string, w') /\
    length made = 2%nat /\
    NoDup (gift_id <$> made).
Proof.
  assert (Hdistinct : NoDup [0%N; 1%N]).
  { apply (bool_decide_unpack _). vm_compute. exact I. }
  split; [exact Hdistinct|].
  destruct (register_gifts_spec
              [mkGiftRequest "Blender" "u1"; mkGiftRequest "Toaster" "u2"]
              (mkWorld ∅ ∅ (fun n => mkDatetime 2026 11 4 9 56 n 0) 0
                       N.of_nat 0 []))
    as (w' & made & Hrun & Hlen & _ & _ & _ & Hnodup).
  exists w', made. split; [exact Hrun|]. split; [exact Hlen|].
  apply Hnodup; [|exact Hdistinct].
  intros i Hi. simpl in *. assert (i = 0 \/ i = 1)%nat as [-> | ->] by lia;
    reflexivity.
Defined.

(** ** Reading a table *)

Lemma full_row_rstrip (n : nat) (row : list string) :
  full_row n row -> rstrip_by blank_cell row = row.
Proof.
  intros (_ & s & Hs & Hne). apply rstrip_by_id. intros x Hx.
  apply blank_cell_false. congruence.
Qed.

Lemma full_row_not_blank (n : nat) (row : list string) :
  full_row n row -> blank_row row = false.
Proof.
  intros (_ & s & Hs & Hne). rewrite last_lookup in Hs.
  by eapply blank_row_false.
Qed.

Lemma header_list_full (headers : list string) :
  header_list headers -> full_row (length headers) headers.
Proof. intros Hh. split; [done|]. exact Hh. Qed.

Lemma max_list_same (n : nat) (l : list nat) :
  l <> [] -> Forall (fun m => m = n) l -> max_list l = n.
Proof.
  intros Hne Hall. induction Hall as [|m l -> Hall IH]; [done|]. simpl.
  destruct l as [|m' l]; [simpl; lia|]. rewrite IH by done. lia.
Qed.

Lemma table_all_full (headers : list string) (ws : worksheet)
    (rows : list (list string)) :
  header_list headers -> table headers ws rows ->
  Forall (full_row (length headers)) (cells ws).
Proof.
  intros Hh [-> Hrows]. constructor; [by apply header_list_full|done].
Qed.

Lemma get_all_values_full (n : nat) (ws : worksheet) :
  Forall (full_row n) (cells ws) -> get_all_values ws = cells ws.
Proof.
  intros Hfull. unfold get_all_values, values_of, fill_gaps.
  assert (Hrows : rstrip_by blank_row (cells ws) = cells ws).
  { apply rstrip_by_id. intros row Hrow.
    apply (full_row_not_blank n). rewrite Forall_forall in Hfull.
    apply Hfull. rewrite last_lookup in Hrow. by eapply list_elem_of_lookup_2. }
  rewrite Hrows.
  assert (Hstrip : rstrip_by blank_cell <$> cells ws = cells ws).
  { rewrite <-(list_fmap_id (cells ws)) at 2. apply list_fmap_ext.
    intros i row Hrow. apply (full_row_rstrip n).
    rewrite Forall_forall in Hfull. by eapply Hfull, list_elem_of_lookup_2. }
  rewrite Hstrip.
  destruct (cells ws) as [|row0 rest] eqn:Hcells; [done|].
  rewrite (max_list_same n); [|done|].
  - rewrite <-(list_fmap_id (row0 :: rest)) at 2. apply list_fmap_ext.
    intros i row Hrow. rewrite Forall_forall in Hfull.
    destruct (Hfull row) as [-> _]; [by eapply list_elem_of_lookup_2|].
    by rewrite Nat.sub_diag, app_nil_r.
  - apply Forall_fmap. eapply Forall_impl; [exact Hfull|]. by intros row [? _].
Qed.

Lemma table_records (headers : list string) (ws : worksheet)
    (rows : list (list string)) :
  header_list headers -> NoDup headers -> table headers ws rows ->
  get_all_records ws = Ok (record_of headers <$> rows).
Proof.
  intros Hh Hnodup Htable. unfold get_all_records.
  rewrite (get_all_values_full (length headers))
    by (by eapply table_all_full).
  destruct Htable as [-> _]. by rewrite bool_decide_eq_true_2.
Qed.

Lemma table_row_values_1 (headers : list string) (ws : worksheet)
    (rows : list (list string)) :
  header_list headers -> table headers ws rows -> row_values ws 1 = headers.
Proof.
  intros Hh [Hcells _]. unfold row_values, row_at. rewrite Hcells. simpl.
  by apply header_list_rstrip.
Qed.


Lemma table_cell_at (headers : list string) (ws : worksheet)
    (rows : list (list string)) (i c : nat) :
  table headers ws rows ->
  cell_at ws (S (S i)) c = default ""%string (default [] (rows !! i) !! pred c).
Proof. intros [Hcells _]. unfold cell_at, row_at. by rewrite Hcells. Qed.

Lemma table_cell_at_header (headers : list string) (ws : worksheet)
    (rows : list (list string)) (c : nat) :
  table headers ws rows ->
  cell_at ws 1 c = default ""%string (headers !! pred c).
Proof. intros [Hcells _]. unfold cell_at, row_at. by rewrite Hcells. Qed.

(** Writing a cell that the table already has. *)
Lemma set_cell_in_table (rows : list (list string)) (r c : nat) (text : string)
    (row : list string) :
  rows !! pred r = Some row -> (1 <= r)%nat -> (1 <= c <= length row)%nat ->
  set_cell r c text rows = <[pred r := <[pred c := text]> row]> rows.
Proof.
  intros Hrow Hr Hc. unfold set_cell.
  pose proof (lookup_lt_Some _ _ _ Hrow) as Hlt.
  replace (r - length rows)%nat with 0%nat by lia. simpl. rewrite app_nil_r.
  apply list_eq. intros j. destruct (decide (j = pred r)) as [->|Hne].
  - rewrite list_lookup_alter_eq, list_lookup_insert_eq, Hrow by done. simpl.
    replace (c - length row)%nat with 0%nat by lia. simpl.
    by rewrite app_nil_r.
  - by rewrite list_lookup_alter_ne, list_lookup_insert_ne.
Qed.

(** ** A purchased gift *)




Lemma length_6 {A} (l : list A) :
  length l = 6%nat -> exists a b c d e f, l = [a; b; c; d; e; f].
Proof.
  intros Hl. repeat (destruct l as [|? l]; [done|]).
  destruct l; [|done]. eauto 8.
Qed.




(** The table after the purchase of the gift in row [i]. *)
Lemma table_purchased (ws : worksheet) (rows : list (list string)) (i : nat)
    (a b c d e f : string) (buyer : string) (now : datetime) :
  table gift_headers ws rows -> rows !! i = Some [a; b; c; d; e; f] ->
  table gift_headers (purchased_sheet ws (S (S i)) buyer now)
        (<[i := [a; b; c; "FALSE"; buyer; str_datetime now]%string]> rows).
Proof.
  intros [Hcells Hrows] Hrow. split.
  - unfold purchased_sheet, update_cell. simpl. rewrite Hcells.
    rewrite (set_cell_in_table (gift_headers :: rows) (S (S i)) 4 "FALSE"
               [a; b; c; d; e; f]); [|exact Hrow|lia|simpl; lia].
    pose proof (lookup_lt_Some _ _ _ Hrow) as Hlt.
    rewrite (set_cell_in_table _ (S (S i)) 5 buyer
               [a; b; c; "FALSE"%string; e; f]);
      [|simpl; by rewrite list_lookup_insert_eq|lia|simpl; lia].
    rewrite (set_cell_in_table _ (S (S i)) 6 (str_datetime now)
               [a; b; c; "FALSE"%string; buyer; f]);
      [|simpl; by rewrite list_lookup_insert_eq by (by rewrite length_insert)
       |lia|simpl; lia].
    simpl. by rewrite !list_insert_insert_eq.
  - apply Forall_insert; [done|]. split; [done|].
    exists (str_datetime now). split; [done|]. apply str_datetime_nonempty.
Qed.




(** ** RSVPs *)

Lemma parse_int_str_int (z : Z) : parse_int (str_int z) = Some z.
Proof.
  unfold parse_int, str_int. rewrite NilZero.isi.
  - simpl. by rewrite DecimalZ.of_to.
  - destruct z; simpl; try done.
    intros [= H]. by apply DecimalPos.Unsigned.to_uint_nonnil in H.
  - destruct z; simpl; try done.
    intros [= H]. by apply DecimalPos.Unsigned.to_uint_nonnil in H.
Qed.

Lemma status_of_string_value (s : RSVPStatus) :
  status_of_string (status_value s) = Some s.
Proof. by destruct s. Qed.

Lemma validate_companion_dump (c : Companion) :
  validate_companion (model_dump c) = Some c.
Proof. destruct c as [n []]; reflexivity. Qed.

Lemma validate_companions_dump (cs : list Companion) :
  validate_companions (Some (JArr (model_dump <$> cs))) = Some (Some cs).
Proof.
  simpl. replace (mapM validate_companion (model_dump <$> cs)) with (Some cs);
    [done|].
  symmetry. apply mapM_Some. apply Forall2_fmap_l, Forall_Forall2_diag.
  apply Forall_true. intros c. apply validate_companion_dump.
Qed.

Lemma json_dumps_nonempty `{JsonCodec} (cs : list Companion) :
  json_lawful _ -> json_dumps (JArr (model_dump <$> cs)) <> ""%string.
Proof.
  intros [Hround Hempty] Hnil. specialize (Hround cs).
  rewrite Hnil, Hempty in Hround. discriminate Hround.
Qed.

Lemma record_of_rsvp (a b c d e : string) :
  record_of rsvp_headers [a; b; c; d; e] !! "full_name" = Some a /\
  record_of rsvp_headers [a; b; c; d; e] !! "status" = Some b /\
  record_of rsvp_headers [a; b; c; d; e] !! "phone" = Some c /\
  record_of rsvp_headers [a; b; c; d; e] !! "companions" = Some d /\
  record_of rsvp_headers [a; b; c; d; e] !! "created_at" = Some e.
Proof. unfold record_of. simpl. by repeat split; simplify_map_eq. Qed.

(** The new row reads back as the submission, with its companions as
    [read_back] gives them. *)
Lemma read_rsvp_new_row `{JsonCodec} (rsvp_data : RSVPRequest) (now : datetime) :
  json_lawful _ \/ read_back (rsvp_companions rsvp_data) = None ->
  read_rsvp (record_of rsvp_headers (render <$> rsvp_row rsvp_data now))
  = Ok (mkRSVP (mkRSVPRequest (rsvp_full_name rsvp_data)
                  (rsvp_status rsvp_data) (rsvp_phone rsvp_data)
                  (read_back (rsvp_companions rsvp_data)))
               (str_datetime now)).
Proof.
  intros Hlaw. unfold rsvp_row.
  set (cell := match rsvp_companions rsvp_data with
               | Some (c :: cs) => PStr (json_dumps (JArr (model_dump <$> c :: cs)))
               | _ => PNone
               end).
  change (render <$> [PStr (rsvp_full_name rsvp_data);
                      PStr (status_value (rsvp_status rsvp_data));
                      PInt (rsvp_phone rsvp_data); cell;
                      PStr (str_datetime now)])
    with [rsvp_full_name rsvp_data; status_value (rsvp_status rsvp_data);
          str_int (rsvp_phone rsvp_data); render cell; str_datetime now].
  destruct (record_of_rsvp (rsvp_full_name rsvp_data)
              (status_value (rsvp_status rsvp_data))
              (str_int (rsvp_phone rsvp_data)) (render cell) (str_datetime now))
    as (Hn & Hs & Hp & Hc & Ht).
  unfold read_rsvp, load_companions, validate_RSVP, dict_get.
  rewrite Hn, Hs, Hp, Hc, Ht. simpl.
  rewrite status_of_string_value, parse_int_str_int.
  unfold cell. destruct (rsvp_companions rsvp_data) as [[|c cs]|] eqn:Hcs;
    simpl; try done.
  destruct Hlaw as [Hlaw|Hnone]; [|done].
  rewrite bool_decide_eq_false_2 by (by apply (json_dumps_nonempty (c :: cs))).
  simpl. destruct Hlaw as [Hround _].
  pose proof (Hround (c :: cs)) as Hr. simpl in Hr. rewrite Hr. simpl.
  pose proof (validate_companions_dump (c :: cs)) as Hv. simpl in Hv.
  by rewrite Hv.
Qed.

Lemma cells_registered (headers : list string) (ws : worksheet)
    (rows : list (list string)) (new : list (list pyval)) :
  header_list headers ->
  cells ws = [] \/ table headers ws rows ->
  cells (append_rows (headed headers ws) new)
  = headers :: tail (cells ws) ++ ((fun row : list pyval => render <$> row) <$> new).
Proof.
  intros Hh Hws.
  assert (Hheaded : cells (headed headers ws) = headers :: tail (cells ws) /\
                    Forall (full_row (length headers)) (tail (cells ws))).
  { destruct Hws as [Hnil|Htable].
    - assert (Hrow : row_values ws 1 = []).
      { unfold row_values, row_at. by rewrite Hnil. }
      unfold headed. rewrite (bool_decide_eq_true_2 _ Hrow), orb_true_r.
      simpl. by rewrite Hnil.
    - pose proof Htable as [Hcells Hrows]. rewrite Hcells. simpl.
      split; [|done]. unfold headed.
      destruct (_ || _); [|done]. simpl. rewrite Hcells. simpl.
      by rewrite drop_all, app_nil_r. }
  destruct Hheaded as [Hcells Hrows].
  unfold append_rows. simpl. rewrite Hcells.
  rewrite rstrip_by_id; [done|].
  intros row Hrow. rewrite last_lookup in Hrow.
  apply list_elem_of_lookup_2 in Hrow.
  apply (full_row_not_blank (length headers)).
  apply elem_of_cons in Hrow as [->|Hrow].
  - by apply header_list_full.
  - rewrite Forall_forall in Hrows. by apply Hrows.
Qed.

Lemma filter_rsvps_cons `{JsonCodec} (status : RSVPStatus) (row : record)
    (rest : list record) :
  filter_rsvps status (row :: rest)
  = if bool_decide (dict_get row "status" = Some (status_value status))
    then rbind (read_rsvp row)
               (fun rsvp => rbind (filter_rsvps status rest)
                                  (fun others => Ok (rsvp :: others)))
    else filter_rsvps status rest.
Proof.
  simpl. destruct (bool_decide _); [|done].
  unfold read_rsvp. by destruct (load_companions row).
Qed.

Lemma filter_rsvps_app `{JsonCodec} (status : RSVPStatus)
    (records1 records2 : list record) (l1 l2 : list RSVP) :
  filter_rsvps status records1 = Ok l1 ->
  filter_rsvps status records2 = Ok l2 ->
  filter_rsvps status (records1 ++ records2) = Ok (l1 ++ l2).
Proof.
  revert l1. induction records1 as [|row rest IH]; intros l1 H1 H2.
  - simpl in H1. by injection H1 as <-.
  - change ((row :: rest) ++ records2) with (row :: (rest ++ records2)).
    rewrite filter_rsvps_cons in *.
    destruct (bool_decide _); [|by apply IH].
    destruct (read_rsvp row) as [rsvp|]; [|done]. simpl in *.
    destruct (filter_rsvps status rest) as [others|]; [|done]. simpl in *.
    injection H1 as <-. by rewrite (IH others).
Qed.

Lemma filter_rsvps_valid `{JsonCodec} (status : RSVPStatus)
    (records : list record) :
  Forall (fun row => exists r, read_rsvp row = Ok r) records ->
  exists l, filter_rsvps status records = Ok l.
Proof.
  induction 1 as [|row rest [r Hr] _ [l IH]]; [by exists []|].
  rewrite filter_rsvps_cons, Hr, IH. simpl.
  destruct (bool_decide _); eauto.
Qed.

Lemma list_rsvps_run `{JsonCodec} (status : RSVPStatus) (w : world) :
  exists w0,
    list_rsvps status w
    = (rbind (get_all_records (sheet w "rsvp")) (filter_rsvps status), w0).
Proof.
  destruct (get_worksheet_run "rsvp" w) as (w0 & pre & Hrun & Hsheets & _).
  assert (Hws : sheet w0 "rsvp" = sheet w "rsvp") by (by eapply sheet_opened).
  unfold list_rsvps, bind, read, lift. rewrite Hrun. cbv beta iota.
  rewrite Hws. exists w0.
  by destruct (get_all_records (sheet w "rsvp")).
Qed.

Lemma NoDup_rsvp_headers : NoDup rsvp_headers.
Proof. apply (bool_decide_unpack _). vm_compute. exact I. Qed.

(** Registering an RSVP and listing its status: the listing ends with the
    submission, its companions as [read_back] gives them. *)
Lemma register_then_list `{JsonCodec} (w : world) (rsvp_data : RSVPRequest) :
  json_lawful _ \/ read_back (rsvp_companions rsvp_data) = None ->
  rsvp_sheet_ok (sheet w "rsvp") ->
  exists w1 w2 before,
    (list_rsvps (rsvp_status rsvp_data) w).1 = Ok before /\
    register_rsvp rsvp_data w = (Ok "RSVP registered successfully."%string, w1) /\
    list_rsvps (rsvp_status rsvp_data) w1
    = (Ok (before
           ++ [mkRSVP (mkRSVPRequest (rsvp_full_name rsvp_data)
                         (rsvp_status rsvp_data) (rsvp_phone rsvp_data)
                         (read_back (rsvp_companions rsvp_data)))
                      (str_datetime (clock_source w (clock_reads w)))]), w2) /\
    cells (sheet w1 "rsvp")
    = rsvp_headers :: tail (cells (sheet w "rsvp"))
      ++ [render <$> rsvp_row rsvp_data (clock_source w (clock_reads w))] /\
    rsvp_sheet_ok (sheet w1 "rsvp").
Proof.
  intros Hlaw Hok.
  set (now := clock_source w (clock_reads w)).
  set (new := render <$> rsvp_row rsvp_data now).
  destruct (register_rsvp_run rsvp_data w) as (w1 & pre & Hrun & Hsheet & _).
  fold now in Hsheet.
  assert (Hold : exists rows,
            (cells (sheet w "rsvp") = [] \/ table rsvp_headers (sheet w "rsvp") rows) /\
            tail (cells (sheet w "rsvp")) = rows /\
            Forall (full_row 5) rows /\
            Forall (fun row => exists r,
                      read_rsvp (record_of rsvp_headers row) = Ok r) rows).
  { destruct Hok as [Hnil|(rows & Htable & Hvalid)].
    - exists []. rewrite Hnil. by repeat split; auto.
    - exists rows. pose proof Htable as [Hcells Hrows]. rewrite Hcells.
      by repeat split; auto. }
  destruct Hold as (rows & Hws & Htail & Hfull & Hvalid).
  assert (Hcells : cells (sheet w1 "rsvp") = rsvp_headers :: rows ++ [new]).
  { rewrite Hsheet. unfold append_row.
    rewrite (cells_registered _ _ rows) by (apply header_list_rsvp || done).
    by rewrite Htail. }
  assert (Hnew_full : full_row 5 new).
  { split; [done|]. exists (str_datetime now). split; [done|].
    apply str_datetime_nonempty. }
  assert (Hnew_valid : read_rsvp (record_of rsvp_headers new)
            = Ok (mkRSVP (mkRSVPRequest (rsvp_full_name rsvp_data)
                            (rsvp_status rsvp_data) (rsvp_phone rsvp_data)
                            (read_back (rsvp_companions rsvp_data)))
                         (str_datetime now))).
  { by apply read_rsvp_new_row. }
  assert (Htable1 : table rsvp_headers (sheet w1 "rsvp") (rows ++ [new])).
  { split; [done|]. apply Forall_app. split; [done|]. by constructor. }
  destruct (list_rsvps_run (rsvp_status rsvp_data) w1) as (w2 & Hlist).
  rewrite (table_records _ _ _ header_list_rsvp NoDup_rsvp_headers Htable1)
    in Hlist.
  simpl in Hlist. rewrite fmap_app in Hlist.
  destruct (filter_rsvps_valid (rsvp_status rsvp_data)
              (record_of rsvp_headers <$> rows)) as [before Hbefore].
  { by apply Forall_fmap. }
  assert (Hwas : (list_rsvps (rsvp_status rsvp_data) w).1 = Ok before).
  { destruct (list_rsvps_run (rsvp_status rsvp_data) w) as (w0 & ->). simpl.
    destruct Hws as [Hnil|Htable].
    - unfold get_all_records, get_all_values, values_of. rewrite Hnil. simpl.
      rewrite Hnil in Htail. simpl in Htail. subst rows. simpl in Hbefore.
      done.
    - by rewrite (table_records _ _ _ header_list_rsvp NoDup_rsvp_headers
                    Htable). }
  rewrite (filter_rsvps_app _ _ _ before
             [mkRSVP (mkRSVPRequest (rsvp_full_name rsvp_data)
                        (rsvp_status rsvp_data) (rsvp_phone rsvp_data)
                        (read_back (rsvp_companions rsvp_data)))
                     (str_datetime now)]) in Hlist; [|done|].
  - exists w1, w2, before. split; [done|]. split; [done|]. split; [done|].
    split; [by rewrite Htail|].
    right. exists (rows ++ [new]). split; [done|].
    apply Forall_app. split; [done|]. constructor; [|done]. eauto.
  - change (record_of rsvp_headers <$> [new]) with [record_of rsvp_headers new].
    rewrite filter_rsvps_cons, Hnew_valid. simpl.
    rewrite bool_decide_eq_true_2; [done|].
    unfold dict_get.
    exact (proj1 (proj2 (record_of_rsvp _ _ _ _ _))).
Qed.

(** ** The codec is lawful *)







Lemma join_cons_cons (sep x y : string) (rest : list string) :
  join sep (x :: y :: rest) = x +:+ sep +:+ join sep (y :: rest).
Proof. reflexivity. Qed.















(** ** The basic-auth gate *)

(** What [get_current_user] does where the two secrets are configured: it
    returns the user name when both texts are exactly the secrets, and
    otherwise raises the unauthorized error with the challenge header. *)
Lemma get_current_user_checks (w : world) (credentials : HTTPBasicCredentials)
    (user secret : string) :
  environ w !! "API_USER" = Some user -> user <> ""%string ->
  environ w !! "API_PASSWORD" = Some secret -> secret <> ""%string ->
  get_current_user credentials w
  = if bool_decide (username credentials = user
                    /\ password credentials = secret)
    then (Ok (username credentials), w)
    else (Raise (HTTPException 401 "Incorrect username or password"
                   [("WWW-Authenticate", "Basic")]%string), w).
Proof.
  intros Hu Hune Hp Hpne. unfold get_current_user, truthy.
  rewrite Hu, Hp.
  rewrite (bool_decide_eq_false_2 (user = ""%string)) by done.
  rewrite (bool_decide_eq_false_2 (secret = ""%string)) by done.
  simpl.
  destruct (bool_decide_reflect (Some (username credentials) = Some user))
    as [[= Hn]|Hn];
  destruct (bool_decide_reflect (Some (password credentials) = Some secret))
    as [[= Hs]|Hs]; simpl.
  - by rewrite bool_decide_eq_true_2.
  - rewrite bool_decide_eq_false_2; [done|]. intros [_ ?]. congruence.
  - rewrite bool_decide_eq_false_2; [done|]. intros [? _]. congruence.
  - rewrite bool_decide_eq_false_2; [done|]. intros [? _]. congruence.
Qed.

(** No route looks at the credentials of a request. *)
Lemma app_ignores_authorization `{JsonCodec}
    (a a' : option HTTPBasicCredentials) (t : endpoint) (w : world) :
  app (mkRequest a t) w = app (mkRequest a' t) w.
Proof. reflexivity. Qed.

(** C7 fails on the code: with the two secrets configured, credentials that
    [get_current_user] rejects with the unauthorized error and its
    challenge header still register a gift, because no route calls the
    check. *)
Theorem unauthenticated_gift_registration :
  get_current_user intruder secured_world
  = (Raise (HTTPException 401 "Incorrect username or password"
              [("WWW-Authenticate", "Basic")]%string), secured_world) /\
  exists w',
    @app companions_codec
         (mkRequest (Some intruder) (POST_gifts [mkGiftRequest "Blender" "u1"]))
         secured_world
    = (mkResponse 201 [] (BodyMessage "1 gifts registered successfully."), w') /\
    cells (sheet w' "gifts")
    = [gift_headers;
       [str_uuid 0%N; "Blender"; "u1"; "TRUE"; "";
        "2026-11-04 09:56:00+00:00"]%string] /\
    calls w'
    = [AddWorksheet "gifts"; Update "gifts" [gift_headers];
       AppendRows "gifts"
         [[PStr (str_uuid 0%N); PStr "Blender"; PStr "u1"; PBool true; PNone;
           PStr "2026-11-04 09:56:00+00:00"]]].
Proof.
  split; [reflexivity|].
  eexists. split; [reflexivity|]. split; reflexivity.
Qed.

(** ** The worlds the service can reach *)

Lemma respond_world {A} (success : Z) (body : A -> http_body) (m : M A)
    (w : world) :
  (respond success body m w).2 = (m w).2.
Proof.
  unfold respond. destruct (m w) as [[a|e] w']; [done|]. by destruct e.
Qed.

Lemma list_rsvps_frame `{JsonCodec} (status : RSVPStatus) (w : world)
    (title : string) :
  sheet (list_rsvps status w).2 title = sheet w title.
Proof.
  destruct (get_worksheet_run "rsvp" w) as (w0 & pre & Hrun & Hsheets & _).
  unfold list_rsvps, bind, read, lift. rewrite Hrun. cbv beta iota.
  destruct (get_all_records (sheet w0 "rsvp")); by eapply sheet_opened.
Qed.

Lemma list_available_gifts_frame (page limit : Z) (w : world) (title : string) :
  sheet (list_available_gifts page limit w).2 title = sheet w title.
Proof.
  destruct (get_worksheet_run "gifts" w) as (w0 & pre & Hrun & Hsheets & _).
  unfold list_available_gifts, bind, read, lift. rewrite Hrun. cbv beta iota.
  destruct (get_all_records (sheet w0 "gifts")); by eapply sheet_opened.
Qed.

Lemma list_testimonials_frame (page limit : Z) (w : world) (title : string) :
  sheet (list_testimonials page limit w).2 title = sheet w title.
Proof.
  destruct (get_worksheet_run "testimonials" w)
    as (w0 & pre & Hrun & Hsheets & _).
  unfold list_testimonials, bind, read, lift, ret. rewrite Hrun.
  cbv beta iota.
  destruct (get_all_records (sheet w0 "testimonials")); by eapply sheet_opened.
Qed.

Lemma get_gift_by_id_frame (id : string) (w : world) (title : string) :
  sheet (get_gift_by_id id w).2 title = sheet w title.
Proof.
  destruct (get_worksheet_run "gifts" w) as (w0 & pre & Hrun & Hsheets & _).
  unfold get_gift_by_id, bind, read, lift, raise. rewrite Hrun. cbv beta iota.
  destruct (find_in_column_1 (sheet w0 "gifts") id); [|by eapply sheet_opened].
  destruct (row_to_dict _ _); by eapply sheet_opened.
Qed.

Lemma update_gift_purchased_miss (w : world) (purchase : GiftPurchaseRequest)
    (title : string) :
  find_in_column_1 (sheet w "gifts") (str_uuid (purchase_id purchase)) = None ->
  sheet (update_gift_purchased purchase w).2 title = sheet w title.
Proof.
  intros Hfind.
  destruct (get_worksheet_run "gifts" w) as (w0 & pre & Hrun & Hsheets & _).
  assert (Hws : forall t, sheet w0 t = sheet w t) by (intros; by eapply sheet_opened).
  unfold update_gift_purchased, bind, read, raise. rewrite Hrun. cbv beta iota.
  rewrite (Hws "gifts"%string), Hfind. apply Hws.
Qed.

Lemma find_in_column_1_no_cells (ws : worksheet) (q : string) :
  cells ws = [] -> find_in_column_1 ws q = None.
Proof.
  intros Hnil. unfold find_in_column_1, get_all_values, values_of.
  by rewrite Hnil.
Qed.

Lemma sheet_in_order_registered (headers : list string) (ws : worksheet)
    (new : list (list pyval)) :
  header_list headers ->
  sheet_in_order headers ws ->
  Forall (fun row => full_row (length headers) (render <$> row)) new ->
  sheet_in_order headers (append_rows (headed headers ws) new).
Proof.
  intros Hh Hws Hnew.
  assert (Hold : exists rows,
            (cells ws = [] \/ table headers ws rows) /\
            tail (cells ws) = rows /\
            Forall (full_row (length headers)) rows).
  { destruct Hws as [Hnil|[rows Htable]].
    - exists []. rewrite Hnil. by repeat split; auto.
    - exists rows. pose proof Htable as [Hcells Hrows]. rewrite Hcells.
      by repeat split; auto. }
  destruct Hold as (rows & Hcase & Htail & Hrows).
  right. eexists. split.
  - by apply (cells_registered _ _ rows).
  - rewrite Htail. apply Forall_app. split; [done|]. by apply Forall_fmap.
Qed.

Lemma gift_row_full (gift : Gift) :
  full_row (length gift_headers) (render <$> gift_row gift).
Proof.
  split; [done|]. exists (str_datetime (gift_updated_at gift)).
  split; [done|]. apply str_datetime_nonempty.
Qed.

Lemma testimonial_row_full (testimonial : TestimonialRequest) (now : datetime) :
  full_row (length testimonial_headers)
           (render <$> testimonial_row testimonial now).
Proof.
  split; [done|]. exists (str_datetime now).
  split; [done|]. apply str_datetime_nonempty.
Qed.

Lemma sheet_in_order_purchased (ws : worksheet) (r : nat) (u : UUID)
    (buyer : string) (now : datetime) :
  sheet_in_order gift_headers ws ->
  find_in_column_1 ws (str_uuid u) = Some r ->
  sheet_in_order gift_headers (purchased_sheet ws r buyer now).
Proof.
  intros [Hnil|[rows Htable]] Hfind.
  - by rewrite find_in_column_1_no_cells in Hfind.
  - apply find_in_column_1_Some in Hfind as (Hr & Hcell & _);
      [|apply str_uuid_nonempty].
    destruct r as [|[|i]]; [lia| |].
    + rewrite (table_cell_at_header _ _ _ _ Htable) in Hcell. simpl in Hcell.
      by destruct (str_uuid_not_id u).
    + rewrite (table_cell_at _ _ _ _ _ Htable) in Hcell.
      destruct (rows !! i) as [row|] eqn:Hrow;
        [|by destruct (str_uuid_nonempty u)].
      assert (Hfull : full_row 6 row).
      { destruct Htable as [_ Hrows]. rewrite Forall_forall in Hrows.
        by eapply Hrows, list_elem_of_lookup_2. }
      destruct (length_6 row (proj1 Hfull)) as (a & b & c & d & e & f & ->).
      right. eexists. by eapply table_purchased.
Qed.

Lemma app_in_order `{JsonCodec} (request : http_request) (w : world) :
  json_lawful _ -> world_in_order w -> world_in_order (app request w).2.
Proof.
  intros Hlaw (Hrsvp & Hgifts & Htest).
  destruct request as [auth route]. unfold app. cbn [target].
  destruct route; rewrite respond_world.
  - destruct (register_then_list w rsvp_data (or_introl Hlaw) Hrsvp)
      as (w1 & _ & _ & _ & Hreg & _ & _ & Hok).
    destruct (register_rsvp_run rsvp_data w) as (w' & _ & Hrun & _ & Hother & _).
    rewrite Hreg in Hrun. injection Hrun as <-. rewrite Hreg. simpl.
    split; [done|]. by rewrite !Hother.
  - unfold world_in_order. by rewrite !list_rsvps_frame.
  - destruct (register_gifts_run gifts w) as (w' & _ & -> & Hsheet & Hother & _).
    simpl. unfold world_in_order. rewrite Hsheet, !Hother by done.
    split; [done|]. split; [|done].
    apply sheet_in_order_registered; [apply header_list_gift|done|].
    apply Forall_fmap, Forall_true. apply gift_row_full.
  - destruct (find_in_column_1 (sheet w "gifts")
                (str_uuid (purchase_id purchase))) as [r|] eqn:Hfind.
    + destruct (update_gift_purchased_run w purchase) as [_ Hhit].
      destruct (Hhit r Hfind) as (msg & w' & -> & Hsheet & Hother). simpl.
      unfold world_in_order. rewrite Hsheet, !Hother by done.
      split; [done|]. split; [|done]. by eapply sheet_in_order_purchased.
    + unfold world_in_order. by rewrite !update_gift_purchased_miss.
  - unfold world_in_order. by rewrite !list_available_gifts_frame.
  - unfold world_in_order. by rewrite !get_gift_by_id_frame.
  - destruct (register_testimonial_run testimonial w)
      as (w' & _ & -> & Hsheet & Hother & _).
    simpl. unfold world_in_order. rewrite Hsheet, !Hother by done.
    split; [done|]. split; [done|]. unfold append_row.
    apply sheet_in_order_registered; [apply header_list_testimonial|done|].
    repeat constructor; try apply str_datetime_nonempty.
    exists (str_datetime (clock_source w (clock_reads w))).
    split; [done|]. apply str_datetime_nonempty.
  - unfold world_in_order. by rewrite !list_testimonials_frame.
Qed.

(** Every world the service reaches has its three worksheets in order:
    the conditions C2, C4, C6 and C9 are proved under hold in all of them. *)
Lemma reachable_in_order `{JsonCodec} (w : world) :
  json_lawful _ -> reachable w -> world_in_order w.
Proof.
  intros Hlaw. induction 1 as [w Hnone|w request _ IH].
  - unfold world_in_order, rsvp_sheet_ok, sheet_in_order, sheet.
    rewrite Hnone, !lookup_empty. simpl. auto.
  - by apply app_in_order.
Qed.

Lemma in_order_header_ready (headers : list string) (ws : worksheet) :
  header_list headers -> sheet_in_order headers ws -> header_ready headers ws.
Proof.
  intros Hh [Hnil|[rows Htable]].
  - left. unfold row_values, row_at. by rewrite Hnil.
  - right. by eapply table_row_values_1.
Qed.

(** ** The header rows in the worlds the service reaches *)









(** ** The statements at sample inputs *)

Lemma row_to_dict_decodes_witness :
  (exists d,
     row_to_dict ["id"; "name"]%string ["g1"; "Blender"; "u1"]%string = Ok d /\
     d !! "id" = Some "g1"%string /\ d !! "name" = Some "Blender"%string /\
     d !! "image_url" = None) /\
  row_to_dict ["id"; "name"]%string ["g1"]%string = Raise IndexError.
Proof.
  destruct (row_to_dict_decodes ["id"; "name"]%string
              ["g1"; "Blender"; "u1"]%string) as [Hlong _].
  destruct (row_to_dict_decodes ["id"; "name"]%string ["g1"]%string)
    as [_ Hshort].
  split.
  - destruct Hlong as (d & Hd & Hout & _ & Hin); [simpl; lia|].
    exists d. split; [exact Hd|].
    assert (Hnodup : NoDup ["id"; "name"]%string)
      by (apply (bool_decide_unpack _); vm_compute; exact I).
    split; [exact (Hin Hnodup 0%nat "id"%string eq_refl)|].
    split; [exact (Hin Hnodup 1%nat "name"%string eq_refl)|].
    apply Hout. apply (bool_decide_unpack _). vm_compute. exact I.
  - apply Hshort. simpl. lia.
Defined.

Lemma mark_purchased_spec_witness :
  exists msg w',
    update_gift_purchased (mkGiftPurchaseRequest 6%N "Sam") gift_world
    = (Ok msg, w') /\
    cell_at (sheet w' "gifts") 3 4 = "FALSE"%string /\
    cell_at (sheet w' "gifts") 3 5 = "Sam"%string /\
    cell_at (sheet w' "gifts") 3 6 = "2026-11-04 09:56:00+00:00"%string /\
    cell_at (sheet w' "gifts") 2 4 = "TRUE"%string.
Proof.
  destruct (mark_purchased_spec gift_world (mkGiftPurchaseRequest 6%N "Sam"))
    as [_ Hhit].
  destruct (Hhit 3%nat) as (msg & w' & Hrun & H4 & H5 & H6 & Hframe & _).
  - lia.
  - reflexivity.
  - intros r' Hr'. assert (r' = 1 \/ r' = 2)%nat as [-> | ->] by lia;
      vm_compute; discriminate.
  - exists msg, w'. split; [exact Hrun|]. split; [exact H4|].
    split; [exact H5|]. split; [exact H6|].
    rewrite Hframe; [reflexivity|lia|lia|lia].
Defined.

